(** * Shallow embedding of the piano/non-piano baseline pipeline

    Sources: [ml/scripts/train_baseline.py] ([featurize], [main]),
    [ml/scripts/predict_file.py] ([featurize], [main]),
    [ml/scripts/prepare_manifest.py] ([collect], [main]) and
    [ml/scripts/download_uiowa_piano.py] ([discover_links], [main]).

    Numeric values (samples, statistics, probabilities, split ratios) are
    rationals [Q]; the float32 cast is an explicit rounding function.  The
    third-party libraries the scripts call (librosa, numpy statistics,
    scikit-learn, joblib, pandas, pathlib, requests with BeautifulSoup) are
    interfaces given as records of functions; the
    code of the scripts themselves is translated line by line.  Python
    exceptions are values of [exc]; a computation that may raise returns
    [result A]. *)

From Stdlib Require Import ZArith QArith Qround Ascii String List Permutation Sorted Lia.
Import ListNotations.
Open Scope string_scope.
Open Scope list_scope.

(** ** Python values used by the scripts *)

(** A raised Python exception: its class name and its message. *)
Record exc := mk_exc { exc_class : string; exc_msg : string }.

Inductive result (A : Type) : Type :=
| Ok : A -> result A
| Err : exc -> result A.
Arguments Ok {A} _.
Arguments Err {A} _.

Definition bind_result {A B} (r : result A) (f : A -> result B) : result B :=
  match r with
  | Ok a => f a
  | Err e => Err e
  end.

Notation "x <- r ;; k" := (bind_result r (fun x => k))
  (at level 61, r at next level, right associativity).

Fixpoint map_result {A B} (f : A -> result B) (l : list A) : result (list B) :=
  match l with
  | [] => Ok []
  | a :: l' => b <- f a ;; bs <- map_result f l' ;; Ok (b :: bs)
  end.

(** The YAML configuration document ([cfg]), with the keys the scripts read. *)
Record config := mk_config {
  sample_rate : Z;
  max_duration_seconds : Q;
  n_fft : Z;
  hop_length : Z;
  n_mels : Z;
  train_split : Q;
  val_split : Q;
  test_split : Q;
  seed : Z;
  classifier_C : Q;
  classifier_max_iter : Z;
  classifier_class_weight : option string
}.

(** A feature vector: a one-dimensional numpy array. *)
Definition vec := list Q.

(** ** Library interfaces *)

(** librosa: [load] decodes (and may raise); the feature functions return
    2-D arrays as lists of rows. *)
Record librosa_api := {
  librosa_load : string -> Z -> Q -> result (list Q * Z);
  melspectrogram : list Q -> Z -> Z -> Z -> Z -> Q -> list (list Q);
  power_to_db : list (list Q) -> list (list Q);
  spectral_centroid : list Q -> Z -> list (list Q);
  spectral_rolloff : list Q -> Z -> list (list Q);
  zero_crossing_rate : list Q -> list (list Q);
  rms : list Q -> list (list Q)
}.

(** numpy: statistics over the flattened array, and the float32 cast. *)
Record numpy_api := {
  np_mean : list Q -> Q;
  np_std : list Q -> Q;
  np_percentile : list Q -> Q -> Q;
  to_float32 : Q -> Q
}.

Section Featurize.
Variable L : librosa_api.
Variable N : numpy_api.

(** [np.mean(arr)] and friends on a 2-D array: over all its elements. *)
Definition flat (m : list (list Q)) : list Q := List.concat m.

(** [np.array(feats, dtype=np.float32)] *)
Definition np_array_f32 (feats : list Q) : vec := map (to_float32 N) feats.

(** [np.zeros(k, dtype=np.float32)] *)
Definition np_zeros (k : nat) : vec := repeat 0%Q k.

(** [mel + 1e-10], elementwise *)
Definition add_floor (m : list (list Q)) : list (list Q) :=
  map (map (Qplus (1 # 10000000000))) m.

(** The body of [featurize] after [librosa.load]: [y] is the decoded signal
    and [sr] its sample rate.  The librosa feature functions are taken to
    return; librosa raises in them on, for instance, non-finite samples or
    a non-positive [hop_length], which this model does not cover. *)
Definition featurize_signal (cfg : config) (y : list Q) (sr : Z) : vec :=
  match y with
  | [] => np_zeros 12
  | _ :: _ =>
    let mel := melspectrogram L y sr (n_fft cfg) (hop_length cfg) (n_mels cfg) 2 in
    let logmel := power_to_db L (add_floor mel) in
    let feats :=
      [ np_mean N (flat logmel);
        np_std N (flat logmel);
        np_percentile N (flat logmel) 10;
        np_percentile N (flat logmel) 50;
        np_percentile N (flat logmel) 90 ] in
    let centroid := spectral_centroid L y sr in
    let rolloff := spectral_rolloff L y sr in
    let zcr := zero_crossing_rate L y in
    let rmsv := rms L y in
    let feats :=
      fold_left (fun acc arr => acc ++ [np_mean N (flat arr); np_std N (flat arr)])
                [centroid; rolloff; zcr; rmsv] feats in
    np_array_f32 feats
  end.

(** [featurize(path, cfg)]; identical in both scripts. *)
Definition featurize (path : string) (cfg : config) : result vec :=
  ysr <- librosa_load L path (sample_rate cfg) (max_duration_seconds cfg) ;;
  Ok (featurize_signal cfg (fst ysr) (snd ysr)).

End Featurize.

(** ** The manifest and the training loop *)

(** A [label] cell of the manifest as pandas reads it: an integer column, or
    a float column (a column with an empty cell is read as float64 with NaN). *)
Inductive cell :=
| CInt (z : Z)
| CFloat (q : Q)
| CNaN.

(** Python's [int(x)] on a cell: truncation toward zero for floats. *)
Definition py_int (c : cell) : result Z :=
  match c with
  | CInt z => Ok z
  | CFloat q => Ok (Z.quot (Qnum q) (Zpos (Qden q)))
  | CNaN => Err (mk_exc "ValueError" "cannot convert float NaN to integer")
  end.

(** One row of [df.itertuples(index=False)]. *)
Record row := mk_row { row_path : string; row_label : cell }.

(** [f"skip {row.path}: {ex}"] *)
Definition skip_line (path : string) (e : exc) : string :=
  ("skip " ++ path ++ ": " ++ exc_msg e)%string.

(** The lists [X], [y], [kept_paths] and the lines printed so far. *)
Record assembly := mk_assembly {
  asm_X : list vec;
  asm_y : list Z;
  asm_kept : list string;
  asm_log : list string
}.

Definition empty_assembly : assembly := mk_assembly [] [] [] [].

Section Loop.
Variable L : librosa_api.
Variable N : numpy_api.
Variable cfg : config.

(** One iteration of [for row in df.itertuples(index=False): try: ...
    except Exception as ex: print(...)]. The three appends run in order, so
    an exception raised by [int(row.label)] leaves [X] already extended. *)
Definition loop_step (st : assembly) (r : row) : assembly :=
  let '(mk_assembly X y kept log) := st in
  match featurize L N (row_path r) cfg with
  | Err ex => mk_assembly X y kept (log ++ [skip_line (row_path r) ex])
  | Ok v =>
    let X := X ++ [v] in
    match py_int (row_label r) with
    | Err ex => mk_assembly X y kept (log ++ [skip_line (row_path r) ex])
    | Ok z => mk_assembly X (y ++ [z]) (kept ++ [row_path r]) log
    end
  end.

Definition assemble (rows : list row) : assembly :=
  fold_left loop_step rows empty_assembly.

End Loop.

(** [np.vstack(X)]: raises on an empty list and on rows of different
    lengths. *)
Definition np_vstack (X : list vec) : result (list vec) :=
  match X with
  | [] => Err (mk_exc "ValueError" "need at least one array to concatenate")
  | x :: _ =>
    if forallb (fun r => Nat.eqb (length r) (length x)) X then Ok X
    else Err (mk_exc "ValueError"
                "all the input array dimensions except for the concatenation axis must match exactly")
  end.

(** [np.unique(y).size] *)
Definition np_unique_size (y : list Z) : nat := length (nodup Z.eq_dec y).

(** ** Splitting *)

(** [_safe_indexing(a, idx)]: the rows of [a] at positions [idx]. *)
Definition select {A} (d : A) (a : list A) (idx : list nat) : list A :=
  map (fun i => nth i a d) idx.

(** Python's [/] on floats. *)
Definition py_div (a b : Q) : result Q :=
  if Qeq_bool b 0 then Err (mk_exc "ZeroDivisionError" "float division by zero")
  else Ok (a / b).

Notation "' pat <- r ;; k" := (bind_result r (fun x => match x with pat => k end))
  (at level 61, pat pattern, r at next level, right associativity).

Section Split.
(** scikit-learn's [StratifiedShuffleSplit(test_size, random_state).split]:
    given the stratification labels, the test size and the seed it returns
    the train and test positions (or raises).  It reads the labels only,
    never the feature rows. *)
Variable split_indices : list Z -> Q -> Z -> result (list nat * list nat).

(** [train_test_split(X, y, test_size=ts, random_state=sd, stratify=y)]
    returning [(X_train, X_test, y_train, y_test)]. *)
Definition train_test_split (X : list vec) (y : list Z) (ts : Q) (sd : Z)
  : result (list vec * list vec * list Z * list Z) :=
  if Nat.eqb (length X) (length y) then
    '(tr, te) <- split_indices y ts sd ;;
    Ok (select [] X tr, select [] X te, select 0%Z y tr, select 0%Z y te)
  else Err (mk_exc "ValueError" "Found input variables with inconsistent numbers of samples").

(** Lines 80-87 of [train_baseline.py]: the two-stage split. *)
Definition split_stage (cfg : config) (X : list vec) (y : list Z)
  : result ((list vec * list vec * list vec) * (list Z * list Z * list Z)) :=
  '(X_train, X_temp, y_train, y_temp) <-
     train_test_split X y (1 - train_split cfg) (seed cfg) ;;
  val_ratio <- py_div (val_split cfg) (val_split cfg + test_split cfg) ;;
  '(X_val, X_test, y_val, y_test) <-
     train_test_split X_temp y_temp (1 - val_ratio) (seed cfg) ;;
  Ok ((X_train, X_val, X_test), (y_train, y_val, y_test)).

End Split.

(** ** The training and inference scripts *)

(** Observable events of a run: a printed line, or a call into a library
    that trains, splits or writes (recorded when it is attempted). *)
Inductive event :=
| Printed (s : string)
| Called (fn : string).

(** A run: the events it produced and its outcome. *)
Definition M (A : Type) : Type := list event * result A.

Definition ret {A} (a : A) : M A := ([], Ok a).

Definition bindM {A B} (m : M A) (f : A -> M B) : M B :=
  match m with
  | (w, Ok a) => let '(w', r) := f a in (w ++ w', r)
  | (w, Err e) => (w, Err e)
  end.

Definition lift {A} (r : result A) : M A := ([], r).
Definition tell (w : list event) : M unit := (w, Ok tt).
Definition raise {A} (e : exc) : M A := ([], Err e).
Definition call {A} (fn : string) (r : result A) : M A := ([Called fn], r).

Notation "x <~ m ;; k" := (bindM m (fun x => k))
  (at level 61, m at next level, right associativity).
Notation "' pat <~ m ;; k" := (bindM m (fun x => match x with pat => k end))
  (at level 61, pat pattern, m at next level, right associativity).

(** [(prob >= 0.5).astype(int)] and [int(p >= 0.5)]. *)
Definition threshold (p : Q) : Z := if Qle_bool (1 # 2) p then 1%Z else 0%Z.

(** The evaluator's thresholded predictions, lines 98-99. *)
Definition thresholded (probs : list Q) : list Z := map threshold probs.

(** The values a run stores in the joblib bundle. *)
Inductive pyval (Model : Type) :=
| PModel (m : Model)
| PConfig (c : config).
Arguments PModel {Model} _.
Arguments PConfig {Model} _.

(** A Python dict with string keys, in insertion order. *)
Definition pack (Model : Type) := list (string * pyval Model).

Definition dict_get {V} (k : string) (d : list (string * V)) : result V :=
  match find (fun kv => String.eqb (fst kv) k) d with
  | Some kv => Ok (snd kv)
  | None => Err (mk_exc "KeyError" k)
  end.

(** The libraries the scripts call beyond featurize: scikit-learn, joblib
    and float formatting. *)
Record backend (Model Report Bytes : Type) := {
  librosa : librosa_api;
  numpy : numpy_api;
  sk_split_indices : list Z -> Q -> Z -> result (list nat * list nat);
  (** [LogisticRegression(C, max_iter, class_weight).fit(X, y)] *)
  sk_fit : Q -> Z -> option string -> list vec -> list Z -> Model;
  (** [model.predict_proba(x)[0, 1]] *)
  sk_predict_proba : Model -> vec -> result Q;
  sk_classification_report : list Z -> list Z -> Report;
  sk_roc_auc_score : list Z -> list Q -> result Q;
  joblib_dump : pack Model -> Bytes;
  joblib_load : Bytes -> result (pack Model);
  fmt4 : Q -> string
}.
Arguments librosa {Model Report Bytes} _.
Arguments numpy {Model Report Bytes} _.
Arguments sk_split_indices {Model Report Bytes} _ _ _ _.
Arguments sk_fit {Model Report Bytes} _ _ _ _ _ _.
Arguments sk_predict_proba {Model Report Bytes} _ _ _.
Arguments sk_classification_report {Model Report Bytes} _ _ _.
Arguments sk_roc_auc_score {Model Report Bytes} _ _ _.
Arguments joblib_dump {Model Report Bytes} _ _.
Arguments joblib_load {Model Report Bytes} _ _.
Arguments fmt4 {Model Report Bytes} _ _.

(** The [metrics] dict written to the report. *)
Record metrics (Report : Type) := mk_metrics {
  val_report : Report;
  test_report : Report;
  val_auc : Q;
  test_auc : Q;
  num_samples : Z
}.

Definition insufficient_classes_msg : string :=
  "Training requires at least 2 classes. Add non-piano clips under ml/data/raw/non_piano.".

Section Scripts.
Context {Model Report Bytes : Type}.
Variable B : backend Model Report Bytes.

Definition feat (path : string) (cfg : config) : result vec :=
  featurize (librosa B) (numpy B) path cfg.

(** [joblib.dump({"model": model, "config": cfg}, model_out)]: the bundle. *)
Definition save_pack (model : Model) (cfg : config) : pack Model :=
  [("model", PModel model); ("config", PConfig cfg)].

(** [train_baseline.main()] from line 80 on: split, fit, evaluate, save;
    the outcome is the written artifact and the metrics.  [fit],
    [joblib.dump], the report folder's [mkdir] and [write_text] are taken
    to succeed. *)
Definition train_rest (cfg : config) (X : list vec) (y : list Z) (model_out report_out : string)
  : M (Bytes * metrics Report) :=
  '(X_trv, X_tev, y_trv, y_tev) <~
     call "train_test_split"
       (train_test_split (sk_split_indices B) X y (1 - train_split cfg) (seed cfg)) ;;
  val_ratio <~ lift (py_div (val_split cfg) (val_split cfg + test_split cfg)) ;;
  '(X_val, X_test, y_val, y_test) <~
     call "train_test_split"
       (train_test_split (sk_split_indices B) X_tev y_tev (1 - val_ratio) (seed cfg)) ;;
  let c := classifier_C cfg in
  let max_iter := classifier_max_iter cfg in
  let class_weight := classifier_class_weight cfg in
  model <~ call "fit" (Ok (sk_fit B c max_iter class_weight X_trv y_trv)) ;;
  val_prob <~ lift (map_result (sk_predict_proba B model) X_val) ;;
  test_prob <~ lift (map_result (sk_predict_proba B model) X_test) ;;
  let val_pred := thresholded val_prob in
  let test_pred := thresholded test_prob in
  vauc <~ lift (sk_roc_auc_score B y_val val_prob) ;;
  tauc <~ lift (sk_roc_auc_score B y_test test_prob) ;;
  let mets := mk_metrics Report
                (sk_classification_report B y_val val_pred)
                (sk_classification_report B y_test test_pred)
                vauc tauc (Z.of_nat (length y)) in
  let artifact := joblib_dump B (save_pack model cfg) in
  _ <~ call "joblib.dump" (Ok tt) ;;
  _ <~ call "write_text" (Ok tt) ;;
  _ <~ tell [Printed ("model: " ++ model_out)%string;
             Printed ("report: " ++ report_out)%string;
             Printed ("val_auc=" ++ fmt4 B vauc ++ " test_auc=" ++ fmt4 B tauc)%string] ;;
  ret (artifact, mets).

(** [train_baseline.main()] from the loaded config and manifest on. *)
Definition train_main (cfg : config) (rows : list row) (model_out report_out : string)
  : M (Bytes * metrics Report) :=
  let asm := assemble (librosa B) (numpy B) cfg rows in
  _ <~ tell (map Printed (asm_log asm)) ;;
  X <~ lift (np_vstack (asm_X asm)) ;;
  let y := asm_y asm in
  _ <~ (if Nat.ltb (np_unique_size y) 2 then
          raise (mk_exc "RuntimeError" insufficient_classes_msg)
        else ret tt) ;;
  train_rest cfg X y model_out report_out.

(** [predict_file.main()] from line 52 on, given the value [pack["model"]]:
    featurize with the supplied config, score and print. *)
Definition predict_from_model (audio_path : string) (cfg : config) (model : pyval Model)
  : M (Q * Z) :=
  x <~ lift (feat audio_path cfg) ;;
  p <~ lift (match model with
             | PModel m => sk_predict_proba B m x
             | PConfig _ =>
               Err (mk_exc "AttributeError"
                      "'dict' object has no attribute 'predict_proba'")
             end) ;;
  let pred := threshold p in
  _ <~ tell [Printed ("file=" ++ audio_path)%string;
             Printed ("piano_probability=" ++ fmt4 B p)%string;
             Printed ("prediction=" ++ (if Z.eqb pred 0 then "non_piano" else "piano"))%string] ;;
  ret (p, pred).

(** [predict_file.main()]: [cfg] is the supplied config document and
    [artifact] the bytes of the [--model] file.  The result is the
    probability and the predicted label. *)
Definition predict_main (audio_path : string) (cfg : config) (artifact : Bytes)
  : M (Q * Z) :=
  pk <~ lift (joblib_load B artifact) ;;
  model <~ lift (dict_get "model" pk) ;;
  predict_from_model audio_path cfg model.

End Scripts.

(** ** Python string operations used by the data scripts

    Strings are sequences of ASCII characters; [str.lower] lowers the
    letters [A]-[Z] and keeps every other character. *)

Definition lower_char (c : ascii) : ascii :=
  let n := nat_of_ascii c in
  if ((65 <=? n) && (n <=? 90))%nat then ascii_of_nat (n + 32) else c.

(** [s.lower()] *)
Fixpoint str_lower (s : string) : string :=
  match s with
  | EmptyString => EmptyString
  | String c s' => String (lower_char c) (str_lower s')
  end.

(** [s.endswith(suf)]: some tail of [s] is [suf]. *)
Fixpoint ends_with (s suf : string) : bool :=
  String.eqb s suf ||
  match s with
  | EmptyString => false
  | String _ s' => ends_with s' suf
  end.

(** [s.startswith(pre)] *)
Definition starts_with (s pre : string) : bool := String.prefix pre s.

(** [s.lstrip('/')] *)
Fixpoint lstrip_slash (s : string) : string :=
  match s with
  | EmptyString => EmptyString
  | String c s' => if Ascii.eqb c "/"%char then lstrip_slash s' else s
  end.

Fixpoint has_char (c : ascii) (s : string) : bool :=
  match s with
  | EmptyString => false
  | String x s' => Ascii.eqb x c || has_char c s'
  end.

(** [s.split("/")[-1]], which is also [Path(s).name] for the paths
    [rglob] yields (no trailing separator). *)
Fixpoint last_segment (s : string) : string :=
  match s with
  | EmptyString => EmptyString
  | String c s' =>
    if has_char "/"%char s' then last_segment s'
    else if Ascii.eqb c "/"%char then s' else s
  end.

(** [s.rfind(c)], [None] standing for [-1]. *)
Fixpoint rfind (c : ascii) (s : string) : option nat :=
  match s with
  | EmptyString => None
  | String x s' =>
    match rfind c s' with
    | Some j => Some (S j)
    | None => if Ascii.eqb x c then Some 0%nat else None
    end
  end.

(** [PurePath.suffix]: [i = name.rfind('.')]; the suffix is [name[i:]]
    when [0 < i < len(name) - 1], and empty otherwise. *)
Definition py_suffix (name : string) : string :=
  match rfind "."%char name with
  | Some i =>
    if ((0 <? i) && (i <? String.length name - 1))%nat
    then substring i (String.length name - i) name
    else EmptyString
  | None => EmptyString
  end.

(** Decimal rendering of a natural number ([f"{n}"]). *)
Fixpoint digits_aux (fuel n : nat) (acc : string) : string :=
  match fuel with
  | O => acc
  | S f =>
    let acc' := String (ascii_of_nat (48 + n mod 10)) acc in
    if (n <? 10)%nat then acc' else digits_aux f (n / 10) acc'
  end.

Definition str_of_nat (n : nat) : string := digits_aux (S n) n EmptyString.

(** ** [prepare_manifest.py] *)

(** [AUDIO_EXTS] *)
Definition AUDIO_EXTS : list string :=
  [".wav"; ".mp3"; ".m4a"; ".aac"; ".wma"; ".flac"; ".aiff"; ".aif"].

(** [p.suffix.lower() in AUDIO_EXTS] *)
Definition is_audio_path (p : string) : bool :=
  existsb (String.eqb (str_lower (py_suffix (last_segment p)))) AUDIO_EXTS.

(** The file system as [pathlib] sees it: [exists()], the paths
    [rglob("*")] yields under a directory (as [str(p)]), and [is_file()]. *)
Record fs_api := {
  fs_exists : string -> bool;
  fs_rglob : string -> list string;
  fs_is_file : string -> bool
}.

(** [dir / name] *)
Definition path_join (dir name : string) : string := (dir ++ "/" ++ name)%string.

(** [collect(split_dir, label)]: the rows [{"path": str(p), "label": label}],
    as (path, label) pairs. *)
Definition collect (fs : fs_api) (split_dir : string) (label : Z) : list (string * Z) :=
  if fs_exists fs split_dir then
    map (fun p => (p, label))
        (filter (fun p => fs_is_file fs p && is_audio_path p) (fs_rglob fs split_dir))
  else [].

(** [drop_duplicates(subset=["path"])]: the first row of each path, in
    order. *)
Fixpoint drop_dup_paths (seen : list string) (rows : list (string * Z)) : list (string * Z) :=
  match rows with
  | [] => []
  | r :: rs =>
    if existsb (String.eqb (fst r)) seen then drop_dup_paths seen rs
    else r :: drop_dup_paths (fst r :: seen) rs
  end.

(** pandas: the row positions [sample(frac=1.0, random_state=42)] puts in
    order, for a frame of [n] rows, and the text of a printed [Series]. *)
Record pandas_api := {
  pd_sample_positions : nat -> list nat;
  pd_series_repr : list (string * nat) -> string
}.

(** [df.label.value_counts().sort_index().rename(index={0: 'non_piano',
    1: 'piano_or_mixed'})] for a frame whose labels are 0 and 1. *)
Definition label_counts (df : list (string * Z)) : list (string * nat) :=
  filter (fun kv => (0 <? snd kv)%nat)
    [("non_piano", length (filter (fun r => Z.eqb (snd r) 0) df));
     ("piano_or_mixed", length (filter (fun r => Z.eqb (snd r) 1) df))].

(** Lines 25-28: the rows of the three folders, in this order. *)
Definition gather_rows (fs : fs_api) (root : string) : list (string * Z) :=
  collect fs (path_join root "piano") 1
  ++ collect fs (path_join root "non_piano") 0
  ++ collect fs (path_join root "mixed") 1.

(** [prepare_manifest.main()] for the arguments [--root root --out out];
    the outcome is the frame written to [out]. *)
Definition prepare_main (fs : fs_api) (pd : pandas_api) (root out : string)
  : M (list (string * Z)) :=
  let rows := gather_rows fs root in
  match rows with
  | [] => raise (mk_exc "RuntimeError" "No audio files found under ml/data/raw")
  | _ :: _ =>
    let dedup := drop_dup_paths [] rows in
    let df := select (EmptyString, 0%Z) dedup (pd_sample_positions pd (length dedup)) in
    _ <~ call "mkdir" (Ok tt) ;;
    _ <~ call "to_csv" (Ok tt) ;;
    _ <~ tell [Printed ("manifest: " ++ out)%string;
               Printed (pd_series_repr pd (label_counts df))] ;;
    ret df
  end.

(** [pd.read_csv] of the manifest [to_csv] wrote, as the training loop
    iterates it: the path column and the integer label column. *)
Definition manifest_rows (df : list (string * Z)) : list row :=
  map (fun r => mk_row (fst r) (CInt (snd r))) df.

(** ** [download_uiowa_piano.py] *)

Definition BASE : string := "https://theremin.music.uiowa.edu".
Definition PAGE : string := (BASE ++ "/MISpiano.html")%string.

(** requests, BeautifulSoup and the output folder: [session.get(url)]
    followed by [raise_for_status()] (a response, or the exception); the
    [href] of each [<a>] of the page in order ([None] when absent); the byte
    length of the body; [out_dir.mkdir(parents=True, exist_ok=True)] and
    [target.write_bytes(resp.content)], each of which may raise (an
    [OSError] on a read-only or full disk, for instance). *)
Record web_api (Resp : Type) := {
  http_get : string -> result Resp;
  resp_hrefs : Resp -> list (option string);
  resp_size : Resp -> nat;
  mkdir_out : string -> result unit;
  write_bytes : string -> Resp -> result unit
}.
Arguments http_get {Resp} _ _.
Arguments resp_hrefs {Resp} _ _.
Arguments resp_size {Resp} _ _.
Arguments mkdir_out {Resp} _ _.
Arguments write_bytes {Resp} _ _ _.

(** The body of the loop over anchors in [discover_links]: the URL it
    appends, if any. *)
Definition link_of_href (h : option string) : option string :=
  match h with
  | None => None
  | Some href =>
    if String.eqb href EmptyString then None
    else
      let href_l := str_lower href in
      if ends_with href_l ".aiff" || ends_with href_l ".wav" then
        Some (if starts_with href "http" then href
              else (BASE ++ "/" ++ lstrip_slash href)%string)
      else None
  end.

Definition collect_links (hrefs : list (option string)) : list string :=
  flat_map (fun h => match link_of_href h with Some u => [u] | None => [] end) hrefs.

(** Insertion into a strictly increasing list, dropping an equal element. *)
Fixpoint insert_uniq (a : string) (l : list string) : list string :=
  match l with
  | [] => [a]
  | b :: l' =>
    match String.compare a b with
    | Lt => a :: l
    | Eq => l
    | Gt => b :: insert_uniq a l'
    end
  end.

(** [sorted(set(links))]: Python orders strings by code points, as
    [String.compare] does. *)
Definition sorted_set (l : list string) : list string :=
  fold_left (fun acc a => insert_uniq a acc) l [].

(** The strict order of [sorted] on strings. *)
Definition str_lt (a b : string) : Prop := String.compare a b = Lt.

Section Download.
Context {Resp : Type}.
Variable W : web_api Resp.

(** [discover_links(session)] *)
Definition discover_links : M (list string) :=
  r <~ call ("GET " ++ PAGE)%string (http_get W PAGE) ;;
  ret (sorted_set (collect_links (resp_hrefs W r))).

(** The files of the output folder: (path, body written) pairs, the most
    recent write first. *)
Definition store := list (string * Resp).

(** [target.exists() and target.stat().st_size > 0] *)
Definition exists_nonempty (st : store) (target : string) : bool :=
  match find (fun kv => String.eqb (fst kv) target) st with
  | Some kv => (0 <? resp_size W (snd kv))%nat
  | None => false
  end.

Definition progress_tag (idx total : nat) : string :=
  ("[" ++ str_of_nat idx ++ "/" ++ str_of_nat total ++ "] ")%string.

(** [for idx, url in enumerate(selected, start=idx): ...]: GET calls and
    file writes are recorded as calls (when attempted); the outcome is the
    final folder. *)
Fixpoint download_loop (out_dir : string) (total : nat) (sel : list string) (idx : nat)
    (st : store) : M store :=
  match sel with
  | [] => ret st
  | url :: rest =>
    let name := last_segment url in
    let target := path_join out_dir name in
    if exists_nonempty st target then
      _ <~ tell [Printed (progress_tag idx total ++ "exists " ++ name)%string] ;;
      download_loop out_dir total rest (S idx) st
    else
      _ <~ tell [Printed (progress_tag idx total ++ "download " ++ name)%string] ;;
      resp <~ call ("GET " ++ url)%string (http_get W url) ;;
      _ <~ call ("write " ++ target)%string (write_bytes W target resp) ;;
      download_loop out_dir total rest (S idx) ((target, resp) :: st)
  end.

(** Python's [urls[:k]] for an integer [k]: a negative [k] counts from the
    end. *)
Definition py_slice_upto {A} (l : list A) (k : Z) : list A :=
  if (0 <=? k)%Z then firstn (Z.to_nat k) l
  else firstn (Z.to_nat (Z.of_nat (length l) + k)) l.

(** [download_uiowa_piano.main()] with [--out out_dir --limit limit], on an
    output folder holding [st0]. *)
Definition download_main (out_dir : string) (limit : Z) (st0 : store) : M store :=
  _ <~ call "mkdir" (mkdir_out W out_dir) ;;
  urls <~ discover_links ;;
  _ <~ (match urls with
        | [] => raise (mk_exc "RuntimeError" "No sample links discovered from source page")
        | _ :: _ => ret tt
        end) ;;
  let selected := py_slice_upto urls limit in
  _ <~ tell [Printed ("Discovered " ++ str_of_nat (length urls) ++ " links, downloading "
                      ++ str_of_nat (length selected))%string] ;;
  st <~ download_loop out_dir (length selected) selected 1 st0 ;;
  _ <~ tell [Printed ("Done. Files in: " ++ out_dir)%string] ;;
  ret st.


End Download.

(** ** scikit-learn's stratified splitter

    [train_test_split(X, y, test_size=ts, random_state=sd, stratify=y)]
    with a float [ts]: [_validate_shuffle_split] sets
    [n_test = ceil(ts * n)] and [n_train = n - n_test];
    [StratifiedShuffleSplit._iter_indices] checks the class sizes, then
    draws for each class [n_i] train and [t_i] test positions, the counts
    given by [_approximate_mode].  The counts and the checks are the
    library's.  Which positions of a class are drawn depends on the seed's
    random permutations; here the first positions of each class are taken,
    in order, and the ties [_approximate_mode] breaks at random go to the
    earlier class. *)

Section StratSplit.
Local Open Scope nat_scope.

Fixpoint insert_Z (a : Z) (l : list Z) : list Z :=
  match l with
  | [] => [a]
  | b :: l' => if Z.leb a b then a :: l else b :: insert_Z a l'
  end.

(** [classes = np.unique(y)]: the distinct labels in increasing order. *)
Definition np_unique (y : list Z) : list Z := fold_right insert_Z [] (nodup Z.eq_dec y).

(** [class_indices[i]]: the positions holding label [c], in increasing
    order ([np.argsort(y_indices, kind="mergesort")] is stable). *)
Definition class_positions (y : list Z) (c : Z) : list nat :=
  filter (fun k => Z.eqb (nth k y 0%Z) c) (seq 0 (length y)).

Definition sum_nat (l : list nat) : nat := fold_right Nat.add 0 l.

(** Insertion of class [k] with remainder [rem] into a list ordered by
    decreasing remainder, after the classes with an equal remainder. *)
Fixpoint insert_by_rem (k rem : nat) (l : list (nat * nat)) : list (nat * nat) :=
  match l with
  | [] => [(k, rem)]
  | (k', r') :: l' => if r' <? rem then (k, rem) :: l else (k', r') :: insert_by_rem k rem l'
  end.

(** [_approximate_mode(class_counts, n_draws, rng)]: the floors of
    [class_counts / class_counts.sum() * n_draws], plus one for the classes
    with the largest remainders until [n_draws] is reached (remainders
    compared over the common denominator [class_counts.sum()]). *)
Definition approximate_mode (counts : list nat) (n_draws : nat) : list nat :=
  let total := sum_nat counts in
  let ks := combine (seq 0 (length counts)) counts in
  let floored := map (fun c => c * n_draws / total) counts in
  let need := n_draws - sum_nat floored in
  let ranked := fold_left (fun acc kc => insert_by_rem (fst kc) (snd kc * n_draws mod total) acc)
                  ks [] in
  let extra := map fst (firstn need ranked) in
  map (fun kf => snd kf + (if existsb (Nat.eqb (fst kf)) extra then 1 else 0))
      (combine (seq 0 (length counts)) floored).

Definition value_error (msg : string) : exc := mk_exc "ValueError" msg.

(** The splitter, as [sk_split_indices]: train and test positions. *)
Definition strat_split (ys : list Z) (ts : Q) (_ : Z) : result (list nat * list nat) :=
  let n := length ys in
  if negb (Qle_bool ts 0%Q) && negb (Qle_bool 1%Q ts) then
    let n_test := Z.to_nat (Qceiling (ts * inject_Z (Z.of_nat n))%Q) in
    let n_train := n - n_test in
    if n_train =? 0 then
      Err (value_error "the resulting train set will be empty. Adjust any of the aforementioned parameters.")
    else
      let classes := np_unique ys in
      let counts := map (fun c => length (class_positions ys c)) classes in
      if existsb (fun k => k <? 2) counts then
        Err (value_error "The least populated class in y has only 1 member, which is too few. The minimum number of groups for any class cannot be less than 2.")
      else if n_train <? length classes then
        Err (value_error "The train_size should be greater or equal to the number of classes")
      else if n_test <? length classes then
        Err (value_error "The test_size should be greater or equal to the number of classes")
      else
        let n_i := approximate_mode counts n_train in
        let t_i := approximate_mode (map (fun ck => fst ck - snd ck) (combine counts n_i)) n_test in
        let pos := map (class_positions ys) classes in
        Ok (flat_map (fun pk => firstn (snd pk) (fst pk)) (combine pos n_i),
            flat_map (fun pk => firstn (snd (snd pk)) (skipn (fst (snd pk)) (fst pk)))
                     (combine pos (combine n_i t_i)))
  else Err (value_error "test_size should be a float in the (0, 1) range").

End StratSplit.

(** The positions [0 .. n-1] with [i] and [j] exchanged, and the list [l]
    with its entries at [i] and [j] exchanged. *)
Definition swap_pos (i j k : nat) : nat :=
  if Nat.eqb k i then j else if Nat.eqb k j then i else k.

Definition swap_at {A} (i j : nat) (d : A) (l : list A) : list A :=
  select d l (map (swap_pos i j) (seq 0 (length l))).


(** ** A concrete backend

    Small, fully computable stand-ins for the libraries, used to run the
    scripts on explicit inputs.  ["corrupt.wav"] fails to decode,
    ["silence.wav"] decodes to zero samples, every other path decodes to a
    two-sample signal.  The model is a constant probability; the splitter
    [sample_split] puts the first half (rounded up) of the positions in the
    train part and, unlike scikit-learn, never raises.  Runs that depend on
    scikit-learn's sizes and checks use [strat_split] below. *)

Definition sample_librosa : librosa_api := {|
  librosa_load := fun path sr _ =>
    if String.eqb path "corrupt.wav" then
      Err (mk_exc "NoBackendError" "could not decode corrupt.wav")
    else if String.eqb path "silence.wav" then Ok ([], sr)
    else Ok ([1 # 2; 0], sr);
  melspectrogram := fun y _ _ _ _ _ => [y];
  power_to_db := fun m => m;
  spectral_centroid := fun y _ => [y];
  spectral_rolloff := fun y _ => [y];
  zero_crossing_rate := fun y => [y];
  rms := fun y => [y]
|}.

Definition sample_numpy : numpy_api := {|
  np_mean := fun l => match l with [] => 0 | x :: _ => x end;
  np_std := fun _ => 0;
  np_percentile := fun _ _ => 0;
  to_float32 := fun q => q
|}.

Definition sample_split (ys : list Z) (_ : Q) (_ : Z) : result (list nat * list nat) :=
  let n := length ys in
  let k := (n - n / 2)%nat in
  Ok (seq 0 k, seq k (n - k)%nat).

Definition sample_backend : backend Q unit (pack Q) := {|
  librosa := sample_librosa;
  numpy := sample_numpy;
  sk_split_indices := sample_split;
  sk_fit := fun _ _ _ _ _ => 1 # 2;
  sk_predict_proba := fun m _ => Ok m;
  sk_classification_report := fun _ _ => tt;
  sk_roc_auc_score := fun _ _ => Ok (1 # 2);
  joblib_dump := fun pk => pk;
  joblib_load := fun pk => Ok pk;
  fmt4 := fun _ => "0.5000"
|}.

Definition sample_config : config :=
  mk_config 22050 10 2048 512 64 (8 # 10) (1 # 10) (1 # 10) 42 1 1000 None.

(** Four one-feature rows with alternating labels. *)
Definition sample_X : list vec := [[1%Q]; [2%Q]; [3%Q]; [4%Q]].
Definition sample_y : list Z := [0%Z; 1%Z; 0%Z; 1%Z].

(** Twenty one-feature rows [[1] .. [20]] with alternating labels 0, 1
    (ten of each): with [sample_config] scikit-learn's first split keeps 16
    rows (8 per class) and the second splits the other 4 in 2 and 2. *)
Definition sample_X20 : list vec := map (fun k => [inject_Z (Z.of_nat k)]) (seq 1 20).
Definition sample_y20 : list Z := map (fun k => Z.of_nat (k mod 2)) (seq 0 20).

(** A twenty-file manifest with alternating labels. *)
Definition sample_rows20 : list row :=
  map (fun k => mk_row ("f" ++ str_of_nat k ++ ".wav")%string (CInt (Z.of_nat (k mod 2))))
      (seq 0 20).

(** The sample backend with scikit-learn's stratified splitter. *)
Definition sample_backend_strat : backend Q unit (pack Q) := {|
  librosa := sample_librosa;
  numpy := sample_numpy;
  sk_split_indices := strat_split;
  sk_fit := fun _ _ _ _ _ => 1 # 2;
  sk_predict_proba := fun m _ => Ok m;
  sk_classification_report := fun _ _ => tt;
  sk_roc_auc_score := fun _ _ => Ok (1 # 2);
  joblib_dump := fun pk => pk;
  joblib_load := fun pk => Ok pk;
  fmt4 := fun _ => "0.5000"
|}.

(** A four-file manifest with both labels. *)
Definition sample_rows : list row :=
  [mk_row "a.wav" (CInt 1); mk_row "b.wav" (CInt 0);
   mk_row "c.wav" (CInt 0); mk_row "d.wav" (CInt 1)].

(** A raw-data folder: [raw/piano] holds an upper-case [.WAV] file, a text
    file and a sub-folder, [raw/non_piano] a hidden file named [.wav] (no
    suffix for pathlib) and a [.flac] file; [raw/mixed] is missing. *)
Definition sample_fs : fs_api := {|
  fs_exists := fun d => String.eqb d "raw/piano" || String.eqb d "raw/non_piano";
  fs_rglob := fun d =>
    if String.eqb d "raw/piano" then
      ["raw/piano/C4.WAV"; "raw/piano/notes.txt"; "raw/piano/sub"]
    else if String.eqb d "raw/non_piano" then
      ["raw/non_piano/.wav"; "raw/non_piano/rain.flac"]
    else [];
  fs_is_file := fun p => negb (String.eqb p "raw/piano/sub")
|}.

(** [sample] as a reversal of the rows. *)
Definition sample_pandas : pandas_api := {|
  pd_sample_positions := fun n => rev (seq 0 n);
  pd_series_repr := fun _ => "label"
|}.

(** The index page: two links to the same AIFF file (absolute path and
    relative path), an absolute link to a [.WAV] file elsewhere, a link to
    a file the server answers with 404, and anchors that are skipped. *)
Definition sample_hrefs : list (option string) :=
  [Some "/sound/Piano.ff.C4.aiff"; None; Some ""; Some "MISpiano.html";
   Some "http://example.org/B3.WAV"; Some "sound/Piano.ff.C4.aiff";
   Some "/sound/broken.wav"].

Definition sample_web : web_api (list (option string) * nat) := {|
  http_get := fun u =>
    if String.eqb u PAGE then Ok (sample_hrefs, 1000%nat)
    else if String.eqb u "https://theremin.music.uiowa.edu/sound/broken.wav" then
      Err (mk_exc "HTTPError" "404 Client Error: Not Found")
    else Ok ([], 4%nat);
  resp_hrefs := fst;
  resp_size := snd;
  mkdir_out := fun _ => Ok tt;
  write_bytes := fun _ _ => Ok tt
|}.

(** The bundle a run on the constant-probability model saves. *)
Definition sample_bundle : pack Q := save_pack (1 # 2) sample_config.

(** A config whose validation and test fractions are both zero. *)
Definition sample_config_no_holdout : config :=
  mk_config 22050 10 2048 512 64 (8 # 10) 0 0 42 1 1000 None.

(** ** Lemmas on position selection *)

Local Open Scope nat_scope.

Lemma select_app {A} (d : A) a i1 i2 :
  select d a (i1 ++ i2) = select d a i1 ++ select d a i2.
Proof. unfold select. apply map_app. Qed.

Lemma select_length {A} (d : A) a idx : length (select d a idx) = length idx.
Proof. unfold select. apply length_map. Qed.

Lemma select_seq_all {A} (d : A) (a : list A) : select d a (seq 0 (length a)) = a.
Proof.
  unfold select. induction a as [|x a IH]; [reflexivity|].
  simpl. f_equal. rewrite <- seq_shift, map_map. exact IH.
Qed.

Lemma select_perm {A} (d : A) (a : list A) idx :
  Permutation idx (seq 0 (length a)) -> Permutation (select d a idx) a.
Proof.
  intro P. rewrite <- (select_seq_all d a) at 2.
  unfold select. apply Permutation_map. exact P.
Qed.

Lemma combine_select {A B} (da : A) (db : B) a b idx :
  length a = length b ->
  combine (select da a idx) (select db b idx) = select (da, db) (combine a b) idx.
Proof.
  intro H. unfold select. induction idx as [|i idx IH]; [reflexivity|].
  simpl. rewrite IH, combine_nth by exact H. reflexivity.
Qed.

Lemma select_select {A} (d : A) l a b :
  (forall i, In i b -> i < length a) ->
  select d (select d l a) b = select d l (select 0 a b).
Proof.
  unfold select. induction b as [|i b IH]; intro Hb; [reflexivity|].
  simpl. rewrite IH by (intros; apply Hb; right; assumption). f_equal.
  rewrite nth_indep with (d' := nth 0 l d)
    by (rewrite length_map; apply Hb; left; reflexivity).
  apply (map_nth (fun k => nth k l d)).
Qed.

Lemma perm_seq_bound (idx rest : list nat) n i :
  Permutation (idx ++ rest) (seq 0 n) -> In i idx -> i < n.
Proof.
  intros P Hi.
  assert (H : In i (seq 0 n)) by (apply (Permutation_in i P), in_or_app; left; exact Hi).
  apply in_seq in H. lia.
Qed.

(** Runs of the scripts on the sample backend. *)
Example featurize_silence_run :
  feat sample_backend "silence.wav" sample_config = Ok (repeat 0%Q 12).
Proof. reflexivity. Qed.

Example featurize_tone_length :
  match feat sample_backend "a.wav" sample_config with
  | Ok v => length v = 13
  | Err _ => False
  end.
Proof. reflexivity. Qed.

(** ** C1: the zero-length signal *)

(** C1 (code_bug).  For a decoded signal with zero samples, [featurize]
    returns the all-zero vector of length 12 ([np.zeros(12)]), while for
    every non-empty signal it returns a vector of length 13: the length of
    the feature vector depends on whether the input is empty. *)
Theorem featurize_empty_length_mismatch (L : librosa_api) (N : numpy_api)
    (cfg : config) (sr : Z) :
  featurize_signal L N cfg [] sr = repeat 0%Q 12 /\
  length (featurize_signal L N cfg [] sr) = 12 /\
  (forall s rest, length (featurize_signal L N cfg (s :: rest) sr) = 13).
Proof.
  split; [reflexivity|]. split; [reflexivity|].
  intros s rest. reflexivity.
Qed.

(** ** C2: the order of the thirteen features *)

(** C2.  For every non-empty signal, [featurize] returns the float32 casts
    of, in this order: the mean, standard deviation, 10th, 50th and 90th
    percentile of the flattened log-mel matrix, then the mean and standard
    deviation of the spectral centroid, the spectral rolloff, the
    zero-crossing rate and the RMS energy; thirteen entries. *)
Theorem featurize_nonempty_layout (L : librosa_api) (N : numpy_api)
    (cfg : config) (s : Q) (rest : list Q) (sr : Z) :
  let y := s :: rest in
  let logmel := flat (power_to_db L (add_floor
                  (melspectrogram L y sr (n_fft cfg) (hop_length cfg) (n_mels cfg) 2))) in
  let stats arr := [np_mean N (flat arr); np_std N (flat arr)] in
  featurize_signal L N cfg y sr =
    map (to_float32 N)
      ([np_mean N logmel; np_std N logmel; np_percentile N logmel 10;
        np_percentile N logmel 50; np_percentile N logmel 90]
       ++ stats (spectral_centroid L y sr) ++ stats (spectral_rolloff L y sr)
       ++ stats (zero_crossing_rate L y) ++ stats (rms L y)) /\
  length (featurize_signal L N cfg y sr) = 13.
Proof. split; reflexivity. Qed.

(** ** C3: the two-stage split is a partition *)

Section SplitPartition.
Variable split_indices : list Z -> Q -> Z -> result (list nat * list nat).
(** The splitter returns a partition of the positions [0 .. len(y)-1]. *)
Hypothesis split_partition : forall ys ts sd tr te,
  split_indices ys ts sd = Ok (tr, te) -> Permutation (tr ++ te) (seq 0 (length ys)).

Lemma train_test_split_ok X y ts sd Xa Xb ya yb :
  train_test_split split_indices X y ts sd = Ok (Xa, Xb, ya, yb) ->
  exists tr te, length X = length y /\ split_indices y ts sd = Ok (tr, te) /\
    Permutation (tr ++ te) (seq 0 (length y)) /\
    Xa = select [] X tr /\ Xb = select [] X te /\
    ya = select 0%Z y tr /\ yb = select 0%Z y te.
Proof.
  unfold train_test_split. destruct (Nat.eqb_spec (length X) (length y)) as [E|]; [|discriminate].
  destruct (split_indices y ts sd) as [[tr te]|e] eqn:S; [|discriminate].
  intro H. injection H as <- <- <- <-.
  exists tr, te. repeat split; auto. eapply split_partition; exact S.
Qed.

(** C3.  When both calls of [train_test_split] succeed, the two-stage split
    (train fraction first, then validation/test of the remainder with test
    size [1 - val/(val+test)]) sends every input position to exactly one of
    the three subsets: the positions are pairwise disjoint and cover the
    input, the sizes add up to the input size, and the (features, label)
    pairs of the three subsets are a rearrangement of the input's. *)
Theorem split_stage_partition (cfg : config) (X : list vec) (y : list Z)
    Xtr Xva Xte ytr yva yte :
  split_stage split_indices cfg X y = Ok ((Xtr, Xva, Xte), (ytr, yva, yte)) ->
  (exists X_temp y_temp,
     train_test_split split_indices X y (1 - train_split cfg) (seed cfg)
       = Ok (Xtr, X_temp, ytr, y_temp) /\
     train_test_split split_indices X_temp y_temp
       (1 - val_split cfg / (val_split cfg + test_split cfg)) (seed cfg)
       = Ok (Xva, Xte, yva, yte)) /\
  (exists ptr pva pte : list nat,
     NoDup (ptr ++ pva ++ pte) /\
     Permutation (ptr ++ pva ++ pte) (seq 0 (length X)) /\
     Xtr = select [] X ptr /\ Xva = select [] X pva /\ Xte = select [] X pte /\
     ytr = select 0%Z y ptr /\ yva = select 0%Z y pva /\ yte = select 0%Z y pte) /\
  length Xtr + length Xva + length Xte = length X /\
  Permutation (combine Xtr ytr ++ combine Xva yva ++ combine Xte yte) (combine X y).
Proof.
  unfold split_stage.
  destruct (train_test_split split_indices X y (1 - train_split cfg) (seed cfg))
    as [[[[Xa Xb] ya] yb]|e] eqn:S1; [|discriminate]. simpl.
  unfold py_div. destruct (Qeq_bool (val_split cfg + test_split cfg) 0); [discriminate|].
  simpl.
  destruct (train_test_split split_indices Xb yb
              (1 - val_split cfg / (val_split cfg + test_split cfg)) (seed cfg))
    as [[[[Xc Xd] yc] yd]|e] eqn:S2; [|discriminate].
  intro H. injection H as <- <- <- <- <- <-.
  apply train_test_split_ok in S1 as S1'.
  destruct S1' as (tr & te1 & Elen & _ & P1 & -> & -> & -> & ->).
  apply train_test_split_ok in S2 as S2'.
  destruct S2' as (va & te & _ & _ & P2 & -> & -> & -> & ->).
  rewrite select_length in P2.
  assert (Bva : forall i, In i va -> i < length te1)
    by (intros i Hi; exact (perm_seq_bound va te (length te1) i P2 Hi)).
  assert (Bte : forall i, In i te -> i < length te1).
  { intros i Hi. apply (perm_seq_bound te va (length te1) i).
    - eapply Permutation_trans; [apply Permutation_app_comm|exact P2].
    - exact Hi. }
  assert (Ppos : Permutation (tr ++ select 0 te1 va ++ select 0 te1 te) (seq 0 (length X))).
  { rewrite <- select_app, Elen. eapply Permutation_trans; [|exact P1].
    apply Permutation_app_head. apply select_perm. exact P2. }
  split; [|split; [|split]].
  - exists (select [] X te1), (select 0%Z y te1). split; [reflexivity|assumption].
  - exists tr, (select 0 te1 va), (select 0 te1 te).
    split; [apply (Permutation_NoDup (Permutation_sym Ppos)), seq_NoDup|].
    split; [exact Ppos|].
    rewrite !select_select by assumption. repeat split; reflexivity.
  - rewrite !select_length. apply Permutation_length in P1, P2.
    rewrite length_app, length_seq in P1. rewrite length_app, length_seq in P2. lia.
  - rewrite !combine_select by (rewrite ?select_length; first [exact Elen | reflexivity]).
    set (R := combine X y).
    assert (LR : length R = length y) by (unfold R; rewrite length_combine; lia).
    rewrite <- select_app.
    eapply Permutation_trans.
    { apply Permutation_app_head, select_perm. rewrite select_length. exact P2. }
    rewrite <- select_app. apply select_perm. rewrite LR. exact P1.
Qed.

End SplitPartition.

(** ** C4: the split reads positions, not examples *)

Section SplitPositions.
Variable split_indices : list Z -> Q -> Z -> result (list nat * list nat).

Lemma train_test_split_same_labels X X' y ts sd Xa Xb ya yb :
  length X' = length X ->
  train_test_split split_indices X y ts sd = Ok (Xa, Xb, ya, yb) ->
  exists tr te,
    Xa = select [] X tr /\ Xb = select [] X te /\
    ya = select 0%Z y tr /\ yb = select 0%Z y te /\
    train_test_split split_indices X' y ts sd
      = Ok (select [] X' tr, select [] X' te, select 0%Z y tr, select 0%Z y te).
Proof.
  intro E. unfold train_test_split. rewrite E.
  destruct (Nat.eqb (length X) (length y)); [|discriminate].
  destruct (split_indices y ts sd) as [[tr te]|e]; [|discriminate].
  intro H. injection H as <- <- <- <-. exists tr, te. repeat split.
Qed.

(** C4 (corrected).  The subsets are the rows at the positions the
    splitter draws from the label sequence, the ratios and the seed.  Two
    inputs with the same label sequence and the same number of rows get the
    same positions, whatever their feature rows: a reordering that keeps the
    label sequence (for instance swapping two examples with the same label)
    moves examples between the subsets. *)
Theorem split_stage_positions (cfg : config) (X X' : list vec) (y : list Z) r :
  length X' = length X ->
  split_stage split_indices cfg X y = Ok r ->
  exists tr te1 va te,
    r = ((select [] X tr, select [] (select [] X te1) va, select [] (select [] X te1) te),
         (select 0%Z y tr, select 0%Z (select 0%Z y te1) va,
          select 0%Z (select 0%Z y te1) te)) /\
    split_stage split_indices cfg X' y =
      Ok ((select [] X' tr, select [] (select [] X' te1) va,
           select [] (select [] X' te1) te),
          (select 0%Z y tr, select 0%Z (select 0%Z y te1) va,
           select 0%Z (select 0%Z y te1) te)).
Proof.
  intro E. unfold split_stage.
  destruct (train_test_split split_indices X y (1 - train_split cfg) (seed cfg))
    as [[[[Xa Xb] ya] yb]|e] eqn:S1; [|discriminate]. simpl.
  destruct (train_test_split_same_labels X X' y _ _ _ _ _ _ E S1)
    as (tr & te1 & -> & -> & -> & -> & S1').
  rewrite S1'. simpl.
  destruct (py_div (val_split cfg) (val_split cfg + test_split cfg)) as [vr|e];
    [|discriminate]. simpl.
  destruct (train_test_split split_indices (select [] X te1) (select 0%Z y te1)
              (1 - vr) (seed cfg)) as [[[[Xc Xd] yc] yd]|e] eqn:S2; [|discriminate].
  assert (E2 : length (select [] X' te1) = length (select [] X te1))
    by (rewrite !select_length; reflexivity).
  destruct (train_test_split_same_labels _ _ _ _ _ _ _ _ _ E2 S2)
    as (va & te & -> & -> & -> & -> & S2').
  rewrite S2'. simpl. intro H. injection H as <-.
  exists tr, te1, va, te. split; reflexivity.
Qed.

End SplitPositions.

(** Exchanging two positions permutes the positions and the list. *)

Lemma swap_pos_invol i j k : swap_pos i j (swap_pos i j k) = k.
Proof.
  unfold swap_pos.
  destruct (Nat.eqb_spec k i) as [->|Hki].
  - destruct (Nat.eqb_spec j i) as [->|Hji]; [reflexivity|].
    rewrite Nat.eqb_refl. reflexivity.
  - destruct (Nat.eqb_spec k j) as [->|Hkj].
    + rewrite Nat.eqb_refl. reflexivity.
    + destruct (Nat.eqb_spec k i); [contradiction|].
      destruct (Nat.eqb_spec k j); [contradiction|reflexivity].
Qed.

Lemma swap_pos_bound i j n k : i < n -> j < n -> k < n -> swap_pos i j k < n.
Proof. unfold swap_pos. intros Hi Hj Hk. destruct (k =? i); [|destruct (k =? j)]; assumption. Qed.

Lemma swap_pos_perm i j n :
  i < n -> j < n -> Permutation (map (swap_pos i j) (seq 0 n)) (seq 0 n).
Proof.
  intros Hi Hj. apply NoDup_Permutation.
  - apply NoDup_map_NoDup_ForallPairs; [|apply seq_NoDup].
    intros a b _ _ E. rewrite <- (swap_pos_invol i j a), E. apply swap_pos_invol.
  - apply seq_NoDup.
  - intro k. rewrite in_map_iff, in_seq. split.
    + intros (k' & <- & Hk'). apply in_seq in Hk'. split; [lia|].
      apply swap_pos_bound; lia.
    + intro Hk. exists (swap_pos i j k). rewrite swap_pos_invol. split; [reflexivity|].
      apply in_seq. split; [lia|]. apply swap_pos_bound; lia.
Qed.

Lemma swap_at_length {A} i j (d : A) l : length (swap_at i j d l) = length l.
Proof. unfold swap_at. rewrite select_length, length_map, length_seq. reflexivity. Qed.

Lemma swap_at_nth {A} i j (d : A) l k :
  k < length l -> nth k (swap_at i j d l) d = nth (swap_pos i j k) l d.
Proof.
  intro Hk. unfold swap_at, select. rewrite map_map.
  assert (E := map_nth (fun k0 => nth (swap_pos i j k0) l d) (seq 0 (length l)) 0 k).
  cbv beta in E. rewrite seq_nth, Nat.add_0_l in E by exact Hk. rewrite <- E.
  apply nth_indep. rewrite length_map, length_seq. exact Hk.
Qed.

(** Exchanging two rows with the same label keeps the label sequence. *)
Lemma swap_same_label (y : list Z) i j :
  nth i y 0%Z = nth j y 0%Z ->
  select 0%Z y (map (swap_pos i j) (seq 0 (length y))) = y.
Proof.
  intro E. transitivity (select 0%Z y (seq 0 (length y))); [|apply select_seq_all].
  unfold select. rewrite map_map. apply map_ext_in. intros k _. unfold swap_pos.
  destruct (Nat.eqb_spec k i) as [->|_]; [symmetry; exact E|].
  destruct (Nat.eqb_spec k j) as [->|_]; [exact E|reflexivity].
Qed.

Lemma split_stage_train (sp : list Z -> Q -> Z -> result (list nat * list nat))
    cfg X y tr te r :
  length X = length y ->
  sp y (1 - train_split cfg)%Q (seed cfg) = Ok (tr, te) ->
  split_stage sp cfg X y = Ok r -> fst (fst (fst r)) = select [] X tr.
Proof.
  intros HL HS. unfold split_stage, train_test_split at 1.
  rewrite HL, Nat.eqb_refl, HS. cbn.
  destruct (py_div (val_split cfg) (val_split cfg + test_split cfg)) as [vr|e];
    [|discriminate]. cbn.
  destruct (train_test_split sp _ _ _ _) as [[[[Xc Xd] yc] yd]|e]; [|discriminate].
  intro H. injection H as <-. reflexivity.
Qed.

(** Whatever positions the splitter draws, as long as some label has a
    row on each side of the first split, exchanging two such rows is a
    reordering of the labelled examples that changes the train subset: the
    row at the train position leaves it. *)
Lemma reorder_changes_train (sp : list Z -> Q -> Z -> result (list nat * list nat))
    cfg (X : list vec) (y : list Z) tr te i j r r' :
  length X = length y -> NoDup X ->
  sp y (1 - train_split cfg)%Q (seed cfg) = Ok (tr, te) ->
  Permutation (tr ++ te) (seq 0 (length y)) ->
  In i tr -> In j te -> nth i y 0%Z = nth j y 0%Z ->
  Permutation (combine X y) (combine (@swap_at vec i j [] X) y) /\
  (split_stage sp cfg X y = Ok r ->
   split_stage sp cfg (@swap_at vec i j [] X) y = Ok r' ->
   ~ Permutation (fst (fst (fst r))) (fst (fst (fst r')))).
Proof.
  intros HL ND HS P Hi Hj Hy.
  assert (Bi : i < length y) by exact (perm_seq_bound tr te _ i P Hi).
  assert (Bj : j < length y).
  { apply (perm_seq_bound te tr _ j); [|exact Hj].
    eapply perm_trans; [apply Permutation_app_comm|exact P]. }
  split.
  - unfold swap_at. rewrite HL.
    rewrite <- (swap_same_label y i j Hy) at 3.
    rewrite (combine_select [] 0%Z X y _ HL).
    apply Permutation_sym, select_perm.
    rewrite length_combine, HL, Nat.min_id. apply swap_pos_perm; assumption.
  - intros E E'.
    rewrite (split_stage_train sp cfg X y tr te r HL HS E).
    rewrite (split_stage_train sp cfg (@swap_at vec i j [] X) y tr te r'
               ltac:(rewrite swap_at_length; exact HL) HS E').
    intro Pm.
    assert (In1 : In (nth i X []) (select [] X tr))
      by exact (in_map (fun k => nth k X []) tr i Hi).
    apply (Permutation_in _ Pm) in In1.
    unfold select in In1. apply in_map_iff in In1. destruct In1 as (k & Ek & Hk).
    assert (Bk : k < length y) by exact (perm_seq_bound tr te _ k P Hk).
    unfold vec in *.
    rewrite swap_at_nth in Ek by lia.
    assert (Ki : swap_pos i j k = i).
    { apply (proj1 (NoDup_nth X []) ND); [apply swap_pos_bound; lia|lia|exact Ek]. }
    assert (Kj : k = j).
    { rewrite <- (swap_pos_invol i j k), Ki. unfold swap_pos. rewrite Nat.eqb_refl.
      reflexivity. }
    subst k.
    apply Permutation_sym, Permutation_NoDup in P; [|apply seq_NoDup].
    destruct (in_split j te) as (a & b & ->); [exact Hj|].
    rewrite app_assoc in P. apply NoDup_remove_2 in P. apply P.
    rewrite <- app_assoc. apply in_or_app. left. exact Hk.
Qed.

(** ** C5: the class check *)

Lemma bindM_ok {A B} w (a : A) (f : A -> M B) :
  bindM (w, Ok a) f = (w ++ fst (f a), snd (f a)).
Proof. simpl. destruct (f a); reflexivity. Qed.

Lemma bindM_err {A B} w e (f : A -> M B) : bindM (w, Err e) f = (w, Err e).
Proof. reflexivity. Qed.

Section ClassCheck.
Context {Model Report Bytes : Type}.
Variable B : backend Model Report Bytes.

Lemma train_rest_starts_with_split cfg X y mo ro :
  exists w r, train_rest B cfg X y mo ro = (Called "train_test_split" :: w, r).
Proof.
  unfold train_rest, call.
  destruct (train_test_split (sk_split_indices B) X y (1 - train_split cfg) (seed cfg))
    as [v|e].
  - rewrite bindM_ok. eexists _, _. reflexivity.
  - eexists _, _. reflexivity.
Qed.

Lemma train_main_after_stack cfg rows mo ro X :
  let asm := assemble (librosa B) (numpy B) cfg rows in
  np_vstack (asm_X asm) = Ok X ->
  train_main B cfg rows mo ro =
    (map Printed (asm_log asm) ++
       fst (bindM (if Nat.ltb (np_unique_size (asm_y asm)) 2 then
                     raise (mk_exc "RuntimeError" insufficient_classes_msg)
                   else ret tt) (fun _ => train_rest B cfg X (asm_y asm) mo ro)),
     snd (bindM (if Nat.ltb (np_unique_size (asm_y asm)) 2 then
                   raise (mk_exc "RuntimeError" insufficient_classes_msg)
                 else ret tt) (fun _ => train_rest B cfg X (asm_y asm) mo ro))).
Proof.
  intros asm H. unfold train_main. fold asm. unfold tell, lift.
  rewrite bindM_ok. cbn [fst snd]. rewrite H, bindM_ok. cbn [fst snd app].
  reflexivity.
Qed.

(** C5 (corrected).  Let [log] be the skip lines printed by the loop.
    With no kept example the run stops at [np.vstack] with a [ValueError].
    When the stacking succeeds, the run raises [RuntimeError] (the code has
    no [InsufficientClassesError]) exactly when fewer than two distinct
    labels were kept, and then its only events are the skip lines: no split
    and no fit was attempted; with two or more distinct labels the check
    passes and the first split is attempted. *)
Theorem train_main_class_check (cfg : config) (rows : list row) (mo ro : string) :
  let asm := assemble (librosa B) (numpy B) cfg rows in
  let log := map Printed (asm_log asm) in
  (asm_X asm = [] ->
   train_main B cfg rows mo ro =
     (log, Err (mk_exc "ValueError" "need at least one array to concatenate"))) /\
  (forall X, np_vstack (asm_X asm) = Ok X ->
   ((np_unique_size (asm_y asm) < 2)%nat <->
    train_main B cfg rows mo ro =
      (log, Err (mk_exc "RuntimeError" insufficient_classes_msg))) /\
   ((2 <= np_unique_size (asm_y asm))%nat ->
    exists w r, train_main B cfg rows mo ro = (log ++ Called "train_test_split" :: w, r))).
Proof.
  intros asm log. split.
  - intro E. unfold train_main. fold asm. unfold tell, lift.
    rewrite bindM_ok. cbn [fst snd]. rewrite E. cbn. rewrite app_nil_r. reflexivity.
  - intros X H.
    pose proof (train_main_after_stack cfg rows mo ro X H) as R. cbv zeta in R.
    unfold asm in log. subst asm log.
    set (y := asm_y (assemble (librosa B) (numpy B) cfg rows)) in *.
    assert (Two : (2 <= np_unique_size y)%nat ->
              exists w r, train_main B cfg rows mo ro =
                (map Printed (asm_log (assemble (librosa B) (numpy B) cfg rows))
                   ++ Called "train_test_split" :: w, r)).
    { intro Le. rewrite R. destruct (Nat.ltb_spec (np_unique_size y) 2); [lia|].
      unfold ret. rewrite bindM_ok. cbn [fst snd app].
      destruct (train_rest_starts_with_split cfg X y mo ro) as (w & r & ->).
      exists w, r. reflexivity. }
    split; [split|exact Two].
    + intro Lt. rewrite R, (proj2 (Nat.ltb_lt _ _) Lt).
      cbv [bindM raise fst snd]. rewrite app_nil_r. reflexivity.
    + intro Eq. destruct (Nat.lt_ge_cases (np_unique_size y) 2) as [Lt|Ge];
        [exact Lt|].
      destruct (Two Ge) as (w & r & E2). rewrite E2 in Eq.
      injection Eq as Eq _. apply (f_equal (@length event)) in Eq.
      rewrite length_app in Eq. simpl in Eq. lia.
Qed.

End ClassCheck.

(** ** C6: the decision threshold *)

Lemma threshold_half (p : Q) : p == 1 # 2 -> threshold p = 1%Z.
Proof.
  intro H. unfold threshold.
  rewrite (proj2 (Qle_bool_iff (1 # 2) p)); [reflexivity|].
  rewrite H. apply Qle_refl.
Qed.

Section Inference.
Context {Model Report Bytes : Type}.
Variable B : backend Model Report Bytes.

Lemma predict_from_model_ok path cfg m x p :
  feat B path cfg = Ok x -> sk_predict_proba B m x = Ok p ->
  predict_from_model B path cfg (PModel m) =
    ([Printed ("file=" ++ path)%string;
      Printed ("piano_probability=" ++ fmt4 B p)%string;
      Printed ("prediction=" ++ (if Z.eqb (threshold p) 0 then "non_piano" else "piano"))%string],
     Ok (p, threshold p)).
Proof.
  intros Hx Hp. unfold predict_from_model, lift, tell, ret.
  rewrite Hx, bindM_ok. cbn [fst snd]. rewrite Hp, bindM_ok. reflexivity.
Qed.

Lemma predict_main_loaded path cfg art pk :
  joblib_load B art = Ok pk ->
  predict_main B path cfg art =
    match dict_get "model" pk with
    | Ok model => predict_from_model B path cfg model
    | Err e => ([], Err e)
    end.
Proof.
  intro H. unfold predict_main, lift. rewrite H, bindM_ok.
  destruct (dict_get "model" pk) as [model|e].
  - rewrite bindM_ok. cbn [fst snd app]. destruct (predict_from_model B path cfg model).
    reflexivity.
  - reflexivity.
Qed.

(** C6.  A probability equal to 0.5 is classified as label 1: in the
    evaluator's thresholded predictions every entry whose probability is
    0.5 becomes 1, and single-file inference on a model output of exactly
    0.5 returns label 1 and prints [prediction=piano]. *)
Theorem threshold_half_is_piano :
  threshold (1 # 2) = 1%Z /\
  (forall (probs : list Q) i, (i < length probs)%nat -> nth i probs 0%Q == 1 # 2 ->
     nth i (thresholded probs) 0%Z = 1%Z) /\
  (forall path cfg art pk m x p,
     joblib_load B art = Ok pk -> dict_get "model" pk = Ok (PModel m) ->
     feat B path cfg = Ok x -> sk_predict_proba B m x = Ok p -> p == 1 # 2 ->
     snd (predict_main B path cfg art) = Ok (p, 1%Z) /\
     In (Printed "prediction=piano") (fst (predict_main B path cfg art))).
Proof.
  split; [apply threshold_half; reflexivity|]. split.
  - intros probs i _ H. unfold thresholded.
    change 0%Z with (threshold 0%Q). rewrite map_nth. apply threshold_half. exact H.
  - intros path cfg art pk m x p Hl Hm Hx Hp Hh.
    rewrite (predict_main_loaded path cfg art pk Hl), Hm,
            (predict_from_model_ok path cfg m x p Hx Hp), (threshold_half p Hh).
    split; [reflexivity|]. simpl. right; right; left. reflexivity.
Qed.

End Inference.

(** ** C7 and C9: the joblib bundle *)

Section Artifact.
Context {Model Report Bytes : Type}.
Variable B : backend Model Report Bytes.

Lemma snd_bindM {A C} (m : M A) (f : A -> M C) :
  snd (bindM m f) = match snd m with Ok a => snd (f a) | Err e => Err e end.
Proof. destruct m as [w [a|e]]; [simpl; destruct (f a)|]; reflexivity. Qed.

Lemma train_rest_artifact cfg X y mo ro art mets :
  snd (train_rest B cfg X y mo ro) = Ok (art, mets) ->
  exists m, art = joblib_dump B (save_pack m cfg).
Proof.
  unfold train_rest, call, lift, tell, ret.
  repeat first
    [ rewrite snd_bindM
    | progress cbn [fst snd]
    | match goal with
      | |- context [match ?r with Ok _ => _ | Err _ => _ end] => destruct r
      | |- context [match ?p with pair _ _ => _ end] => destruct p
      end ];
    try discriminate.
  intro H. injection H as <- _. eexists. reflexivity.
Qed.

Lemma train_main_artifact cfg rows mo ro art mets :
  snd (train_main B cfg rows mo ro) = Ok (art, mets) ->
  exists m, art = joblib_dump B (save_pack m cfg).
Proof.
  unfold train_main, tell, lift, raise, ret.
  rewrite bindM_ok. cbn [fst snd].
  destruct (np_vstack _) as [X|e]; [|discriminate].
  rewrite bindM_ok. cbn [fst snd].
  destruct (Nat.ltb _ 2); [discriminate|].
  rewrite bindM_ok. cbn [fst snd]. apply train_rest_artifact.
Qed.

(** joblib's contract: loading what [joblib.dump] wrote gives the dumped
    object back. *)
Hypothesis joblib_roundtrip : forall pk, joblib_load B (joblib_dump B pk) = Ok pk.

(** C7 (corrected).  Loading the artifact a successful training run writes
    gives back the dict [{"model": model, "config": cfg}] unchanged: its
    ["model"] entry is the fitted model, so inference with it computes
    exactly what the fitted model computes, and its ["config"] entry is the
    config the run used.  The inference script reads only ["model"]: a
    successfully loaded bundle is accepted whatever its ["config"] entry,
    including none. *)
Theorem save_load_roundtrip (cfg : config) (rows : list row) (mo ro : string)
    (art : Bytes) (mets : metrics Report) :
  snd (train_main B cfg rows mo ro) = Ok (art, mets) ->
  exists m pk,
    art = joblib_dump B (save_pack m cfg) /\
    joblib_load B art = Ok pk /\
    dict_get "model" pk = Ok (PModel m) /\
    dict_get "config" pk = Ok (PConfig cfg) /\
    (forall path cfg', predict_main B path cfg' art = predict_from_model B path cfg' (PModel m)) /\
    (forall art' pk' path cfg', joblib_load B art' = Ok pk' ->
       dict_get "model" pk' = Ok (PModel m) ->
       predict_main B path cfg' art' = predict_main B path cfg' art).
Proof.
  intro H. destruct (train_main_artifact cfg rows mo ro art mets H) as [m ->].
  exists m, (save_pack m cfg).
  assert (Lm : forall path cfg',
             predict_main B path cfg' (joblib_dump B (save_pack m cfg))
             = predict_from_model B path cfg' (PModel m)).
  { intros path cfg'. rewrite (predict_main_loaded B path cfg' _ _ (joblib_roundtrip _)).
    reflexivity. }
  repeat split; try reflexivity.
  - apply joblib_roundtrip.
  - exact Lm.
  - intros art' pk' path cfg' Hl Hm. rewrite Lm, (predict_main_loaded B path cfg' _ _ Hl), Hm.
    reflexivity.
Qed.

(** C9.  Inference never compares the supplied config with the stored one:
    for a bundle saved with any stored config, the run is the one of
    [predict_from_model] on the stored model and the supplied config; two
    bundles with the same model and different stored configs give the same
    run; whenever featurizing with the supplied config and scoring succeed,
    the run completes with that probability and its thresholded label. *)
Theorem predict_ignores_stored_config (m : Model) (stored1 stored2 cfg : config)
    (path : string) :
  predict_main B path cfg (joblib_dump B (save_pack m stored1))
    = predict_from_model B path cfg (PModel m) /\
  predict_main B path cfg (joblib_dump B (save_pack m stored1))
    = predict_main B path cfg (joblib_dump B (save_pack m stored2)) /\
  (forall x p, feat B path cfg = Ok x -> sk_predict_proba B m x = Ok p ->
     snd (predict_main B path cfg (joblib_dump B (save_pack m stored1)))
       = Ok (p, threshold p)).
Proof.
  assert (L : forall st, predict_main B path cfg (joblib_dump B (save_pack m st))
                         = predict_from_model B path cfg (PModel m)).
  { intro st. rewrite (predict_main_loaded B path cfg _ _ (joblib_roundtrip _)).
    reflexivity. }
  split; [apply L|]. split; [rewrite !L; reflexivity|].
  intros x p Hx Hp. rewrite L, (predict_from_model_ok B path cfg m x p Hx Hp). reflexivity.
Qed.

End Artifact.

(** ** C8 and C10: the record-and-skip loop *)

Section LoopFacts.
Variable L : librosa_api.
Variable N : numpy_api.
Variable cfg : config.

(** What a row contributes once its featurization result is known. *)
Definition row_vecs (r : row) : list vec :=
  match featurize L N (row_path r) cfg with Ok v => [v] | Err _ => [] end.
Definition row_labels (r : row) : list Z :=
  match featurize L N (row_path r) cfg with
  | Ok _ => match py_int (row_label r) with Ok z => [z] | Err _ => [] end
  | Err _ => []
  end.
Definition row_kept (r : row) : list string :=
  match featurize L N (row_path r) cfg with Ok _ => [row_path r] | Err _ => [] end.
Definition row_skips (r : row) : list string :=
  match featurize L N (row_path r) cfg with
  | Err e => [skip_line (row_path r) e]
  | Ok _ => []
  end.

Lemma fold_loop_step rows X y kept log :
  Forall (fun r => exists z, py_int (row_label r) = Ok z) rows ->
  fold_left (loop_step L N cfg) rows (mk_assembly X y kept log) =
  mk_assembly (X ++ flat_map row_vecs rows) (y ++ flat_map row_labels rows)
              (kept ++ flat_map row_kept rows) (log ++ flat_map row_skips rows).
Proof.
  revert X y kept log. induction rows as [|r rows IH]; intros X y kept log Hl.
  - simpl. rewrite !app_nil_r. reflexivity.
  - inversion Hl as [|? ? [z Hz] Hrest]; subst. simpl.
    unfold row_vecs at 1, row_labels at 1, row_kept at 1, row_skips at 1.
    destruct (featurize L N (row_path r) cfg) as [v|e]; rewrite ?Hz;
      rewrite IH by exact Hrest; rewrite <- ?app_assoc; reflexivity.
Qed.

(** C8.  For a manifest whose label cells are integers, the loop always
    runs to the end: each row whose audio fails to featurize adds exactly
    its skip line [skip <path>: <error>] to the printed log and nothing
    else, and the feature list, label list and kept paths handed on to
    training are exactly those of the rows that featurized, in manifest
    order. *)
Theorem assemble_skips_failures (rows : list row) :
  Forall (fun r => exists z, py_int (row_label r) = Ok z) rows ->
  assemble L N cfg rows =
    mk_assembly (flat_map row_vecs rows) (flat_map row_labels rows)
                (flat_map row_kept rows) (flat_map row_skips rows).
Proof.
  intro H. unfold assemble, empty_assembly. rewrite fold_loop_step by exact H.
  reflexivity.
Qed.

End LoopFacts.

(** C10 (code_bug).  A manifest row whose audio decodes but whose label
    cell is empty (read as NaN) gets its feature vector appended to [X]
    before [int(row.label)] raises, so [X] and [y] lose their alignment:
    on the manifest [a.wav,<empty>], [b.wav,0], [c.wav,1] the loop ends
    with three vectors and two labels, label 0 (of [b.wav]) standing next
    to the vector of [a.wav], and the run then fails in the first split. *)
Theorem assemble_nan_label_misaligns :
  let rows := [mk_row "a.wav" CNaN; mk_row "b.wav" (CInt 0); mk_row "c.wav" (CInt 1)] in
  let asm := assemble sample_librosa sample_numpy sample_config rows in
  length (asm_X asm) = 3%nat /\ length (asm_y asm) = 2%nat /\
  asm_y asm = [0%Z; 1%Z] /\ asm_kept asm = ["b.wav"; "c.wav"] /\
  asm_log asm = ["skip a.wav: cannot convert float NaN to integer"] /\
  snd (train_main sample_backend sample_config rows "m" "r") =
    Err (mk_exc "ValueError" "Found input variables with inconsistent numbers of samples").
Proof. vm_compute. repeat split; reflexivity. Qed.

(** ** Runs on the sample backend *)

Lemma sample_split_partition : forall ys ts sd tr te,
  sample_split ys ts sd = Ok (tr, te) -> Permutation (tr ++ te) (seq 0 (length ys)).
Proof.
  intros ys ts sd tr te H. unfold sample_split in H. injection H as <- <-.
  rewrite <- seq_app.
  match goal with |- Permutation (seq 0 ?a) _ => replace a with (length ys) end;
    [apply Permutation_refl|].
  change (fst (Nat.divmod (length ys) 1 0 1)) with (length ys / 2).
  assert (length ys / 2 <= length ys)%nat by (apply Nat.Div0.div_le_upper_bound; lia).
  lia.
Qed.

Lemma sample_joblib_roundtrip : forall pk,
  joblib_load sample_backend (joblib_dump sample_backend pk) = Ok pk.
Proof. reflexivity. Qed.

Lemma split_stage_partition_witness :
  split_stage sample_split sample_config sample_X sample_y
    = Ok (([[1%Q]; [2%Q]], [[3%Q]], [[4%Q]]), ([0%Z; 1%Z], [0%Z], [1%Z])) /\
  Permutation (combine [[1%Q]; [2%Q]] [0%Z; 1%Z] ++ combine [[3%Q]] [0%Z] ++
               combine [[4%Q]] [1%Z]) (combine sample_X sample_y).
Proof.
  assert (E : split_stage sample_split sample_config sample_X sample_y
    = Ok (([[1%Q]; [2%Q]], [[3%Q]], [[4%Q]]), ([0%Z; 1%Z], [0%Z], [1%Z])))
    by (vm_compute; reflexivity).
  split; [exact E|].
  exact (proj2 (proj2 (proj2 (split_stage_partition sample_split sample_split_partition
           sample_config sample_X sample_y _ _ _ _ _ _ E)))).
Defined.

Lemma split_stage_positions_witness :
  exists tr te1 va te,
    split_stage strat_split sample_config (@swap_at vec 0 16 [] sample_X20) sample_y20 =
      Ok ((select [] (@swap_at vec 0 16 [] sample_X20) tr,
           select [] (select [] (@swap_at vec 0 16 [] sample_X20) te1) va,
           select [] (select [] (@swap_at vec 0 16 [] sample_X20) te1) te),
          (select 0%Z sample_y20 tr, select 0%Z (select 0%Z sample_y20 te1) va,
           select 0%Z (select 0%Z sample_y20 te1) te)).
Proof.
  destruct (split_stage strat_split sample_config sample_X20 sample_y20) as [r|e] eqn:E;
    [|vm_compute in E; discriminate E].
  destruct (split_stage_positions strat_split sample_config sample_X20
              (@swap_at vec 0 16 [] sample_X20) sample_y20 r ltac:(vm_compute; reflexivity) E)
    as (tr & te1 & va & te & _ & E').
  exists tr, te1, va, te. exact E'.
Defined.

Lemma sample_X20_nodup : NoDup sample_X20.
Proof.
  unfold sample_X20. apply NoDup_map_NoDup_ForallPairs; [|apply seq_NoDup].
  intros a b _ _ E. cbv [inject_Z] in E. injection E as E. lia.
Qed.

(** C4, counterexample.  Twenty examples [[1] .. [20]] with alternating
    labels, split with [sample_config] (fractions 0.8, 0.1, 0.1), an input
    on which scikit-learn's split succeeds: 16 train rows, 8 of each class,
    and 4 held out, 2 of each class, then split 2 and 2.  Whatever
    positions the splitter draws, a label with a row on each side of the
    first split (here both labels) gives a reordering of the labelled
    examples, the exchange of those two rows, that changes the train
    subset.  With the first positions of each class drawn, exchanging rows
    0 and 16 (both labelled 0) moves [[1]] out of the train subset. *)
Lemma split_order_counterexample :
  (forall (sp : list Z -> Q -> Z -> result (list nat * list nat)) tr te i j r r',
     sp sample_y20 (1 - train_split sample_config)%Q (seed sample_config) = Ok (tr, te) ->
     Permutation (tr ++ te) (seq 0 20) ->
     In i tr -> In j te -> nth i sample_y20 0%Z = nth j sample_y20 0%Z ->
     Permutation (combine sample_X20 sample_y20)
                 (combine (@swap_at vec i j [] sample_X20) sample_y20) /\
     (split_stage sp sample_config sample_X20 sample_y20 = Ok r ->
      split_stage sp sample_config (@swap_at vec i j [] sample_X20) sample_y20 = Ok r' ->
      ~ Permutation (fst (fst (fst r))) (fst (fst (fst r'))))) /\
  strat_split sample_y20 (1 - train_split sample_config)%Q (seed sample_config)
    = Ok ([0; 2; 4; 6; 8; 10; 12; 14; 1; 3; 5; 7; 9; 11; 13; 15], [16; 18; 17; 19]) /\
  exists r r',
    split_stage strat_split sample_config sample_X20 sample_y20 = Ok r /\
    split_stage strat_split sample_config (@swap_at vec 0 16 [] sample_X20) sample_y20 = Ok r' /\
    In [1%Q] (fst (fst (fst r))) /\ ~ In [1%Q] (fst (fst (fst r'))) /\
    ~ Permutation (fst (fst (fst r))) (fst (fst (fst r'))).
Proof.
  split.
  { intros sp tr te i j r r' HS P Hi Hj Hy.
    exact (reorder_changes_train sp sample_config sample_X20 sample_y20 tr te i j r r'
             eq_refl sample_X20_nodup HS P Hi Hj Hy). }
  split; [vm_compute; reflexivity|].
  destruct (split_stage strat_split sample_config sample_X20 sample_y20) as [r|e] eqn:E;
    [|vm_compute in E; discriminate E].
  destruct (split_stage strat_split sample_config (@swap_at vec 0 16 [] sample_X20) sample_y20)
    as [r'|e] eqn:E'; [|vm_compute in E'; discriminate E'].
  exists r, r'. split; [reflexivity|]. split; [reflexivity|].
  vm_compute in E, E'. injection E as E. injection E' as E'.
  assert (In1 : In [1%Q] (fst (fst (fst r)))) by (rewrite <- E; simpl; left; reflexivity).
  assert (Out1 : ~ In [1%Q] (fst (fst (fst r')))).
  { rewrite <- E'. simpl. intro H. repeat destruct H as [H|H]; try discriminate H; exact H. }
  split; [exact In1|]. split; [exact Out1|].
  intro Pm. exact (Out1 (Permutation_in _ Pm In1)).
Qed.

(** C5, counterexample.  A manifest whose rows all carry label 1 makes the
    run raise [RuntimeError], not [InsufficientClassesError]; an empty
    manifest has fewer than two labels too, and the run raises [ValueError]
    at [np.vstack]. *)
Lemma class_check_counterexample :
  train_main sample_backend sample_config
    [mk_row "a.wav" (CInt 1); mk_row "b.wav" (CInt 1)] "m" "r"
    = ([], Err (mk_exc "RuntimeError" insufficient_classes_msg)) /\
  train_main sample_backend sample_config [] "m" "r"
    = ([], Err (mk_exc "ValueError" "need at least one array to concatenate")).
Proof. split; vm_compute; reflexivity. Qed.

Lemma train_main_class_check_witness :
  train_main sample_backend sample_config
    [mk_row "corrupt.wav" (CInt 0); mk_row "a.wav" (CInt 1); mk_row "b.wav" (CInt 1)] "m" "r"
    = ([Printed "skip corrupt.wav: could not decode corrupt.wav"],
       Err (mk_exc "RuntimeError" insufficient_classes_msg)).
Proof.
  destruct (train_main_class_check sample_backend sample_config
              [mk_row "corrupt.wav" (CInt 0); mk_row "a.wav" (CInt 1); mk_row "b.wav" (CInt 1)]
              "m" "r") as [_ H].
  apply (H _ eq_refl). vm_compute. lia.
Defined.

Lemma threshold_half_is_piano_witness :
  snd (predict_main sample_backend "a.wav" sample_config
         [("model", PModel (1 # 2)); ("config", PConfig sample_config)])
    = Ok (1 # 2, 1%Z).
Proof.
  destruct (threshold_half_is_piano sample_backend) as (_ & _ & H).
  set (art := [("model", PModel (1 # 2)); ("config", PConfig sample_config)]).
  eapply (proj1 (H "a.wav" sample_config art art (1 # 2) _ (1 # 2) eq_refl eq_refl eq_refl
                   eq_refl (Qeq_refl _))).
Defined.

(** C7, counterexample.  A bundle with a model and no ["config"] entry
    loads and yields a prediction: the load neither fails nor yields a
    (model, config) pair. *)
Lemma artifact_without_config_loads :
  dict_get "config" [("model", @PModel Q (1 # 2))] = Err (mk_exc "KeyError" "config") /\
  predict_main sample_backend "a.wav" sample_config [("model", PModel (1 # 2))]
    = ([Printed "file=a.wav"; Printed "piano_probability=0.5000";
        Printed "prediction=piano"], Ok (1 # 2, 1%Z)).
Proof. split; vm_compute; reflexivity. Qed.

Lemma save_load_roundtrip_witness :
  exists m pk,
    joblib_load sample_backend (save_pack (1 # 2) sample_config) = Ok pk /\
    dict_get "model" pk = Ok (PModel m) /\
    dict_get "config" pk = Ok (PConfig sample_config).
Proof.
  assert (E : snd (train_main sample_backend sample_config sample_rows "m" "r")
              = Ok (save_pack (1 # 2) sample_config, mk_metrics unit tt tt (1 # 2) (1 # 2) 4))
    by (vm_compute; reflexivity).
  destruct (save_load_roundtrip sample_backend sample_joblib_roundtrip sample_config
              sample_rows "m" "r" _ _ E) as (m & pk & _ & El & Em & Ec & _).
  exists m, pk. exact (conj El (conj Em Ec)).
Defined.

Lemma assemble_skips_failures_witness :
  assemble sample_librosa sample_numpy sample_config
    [mk_row "a.wav" (CInt 1); mk_row "corrupt.wav" (CInt 0); mk_row "b.wav" (CInt 0)]
  = mk_assembly
      (flat_map (row_vecs sample_librosa sample_numpy sample_config)
         [mk_row "a.wav" (CInt 1); mk_row "corrupt.wav" (CInt 0); mk_row "b.wav" (CInt 0)])
      [1%Z; 0%Z] ["a.wav"; "b.wav"] ["skip corrupt.wav: could not decode corrupt.wav"].
Proof.
  rewrite (assemble_skips_failures sample_librosa sample_numpy sample_config).
  - reflexivity.
  - repeat constructor; eexists; reflexivity.
Defined.

Lemma predict_ignores_stored_config_witness :
  predict_main sample_backend "a.wav" sample_config
    (joblib_dump sample_backend (save_pack (1 # 2) sample_config))
  = predict_main sample_backend "a.wav" sample_config
      (joblib_dump sample_backend
         (save_pack (1 # 2) (mk_config 16000 5 1024 256 40 (6 # 10) (2 # 10) (2 # 10)
                               7 1 100 (Some "balanced")))).
Proof.
  exact (proj1 (proj2 (predict_ignores_stored_config sample_backend sample_joblib_roundtrip
           (1 # 2) sample_config _ sample_config "a.wav"))).
Defined.

(** * Further properties of the training and inference scripts *)

Section LoopCounts.
Variable L : librosa_api.
Variable N : numpy_api.
Variable cfg : config.

Lemma loop_step_counts st r :
  let st' := loop_step L N cfg st r in
  length (asm_kept st') + length (asm_y st) = length (asm_kept st) + length (asm_y st') /\
  length (asm_y st') + length (asm_log st') = length (asm_y st) + length (asm_log st) + 1 /\
  length (asm_y st') + length (asm_X st) <= length (asm_X st') + length (asm_y st) /\
  length (asm_X st') <= length (asm_X st) + 1.
Proof.
  destruct st as [X y kept log]. unfold loop_step.
  destruct (featurize L N (row_path r) cfg) as [v|e];
    [destruct (py_int (row_label r)) as [z|e]|]; simpl; rewrite ?length_app; simpl; lia.
Qed.

Lemma fold_loop_counts rows st :
  let st' := fold_left (loop_step L N cfg) rows st in
  length (asm_kept st') + length (asm_y st) = length (asm_kept st) + length (asm_y st') /\
  length (asm_y st') + length (asm_log st') = length (asm_y st) + length (asm_log st) + length rows /\
  length (asm_y st') + length (asm_X st) <= length (asm_X st') + length (asm_y st) /\
  length (asm_X st') <= length (asm_X st) + length rows.
Proof.
  revert st. induction rows as [|r rows IH]; intro st; cbv zeta; simpl; [lia|].
  specialize (IH (loop_step L N cfg st r)). pose proof (loop_step_counts st r) as S.
  cbv zeta in IH, S. lia.
Qed.

Lemma fold_loop_keeps_vectors rows st r v :
  In r rows -> featurize L N (row_path r) cfg = Ok v ->
  In v (asm_X (fold_left (loop_step L N cfg) rows st)).
Proof.
  assert (Mono : forall rs s0 w, In w (asm_X s0) ->
            In w (asm_X (fold_left (loop_step L N cfg) rs s0))).
  { induction rs as [|r0 rs IH]; intros s0 w H; [exact H|].
    simpl. apply IH. destruct s0 as [X y kept log]. unfold loop_step.
    destruct (featurize L N (row_path r0) cfg);
      [destruct (py_int (row_label r0))|]; simpl; rewrite ?in_app_iff; auto. }
  revert st. induction rows as [|r' rows IH]; intros st Hr Hv; [destruct Hr|].
  destruct Hr as [->|Hr].
  - simpl. apply Mono. destruct st as [X y kept log]. unfold loop_step. rewrite Hv.
    destruct (py_int (row_label r)); simpl; apply in_or_app; right; left; reflexivity.
  - apply IH; assumption.
Qed.

(** X1.  Whatever the manifest, the loop keeps one label per kept path;
    every row ends up either as a label or as a skip line; and the feature
    list holds at least as many vectors as there are labels, at most one per
    row. *)
Theorem assemble_counts (rows : list row) :
  let asm := assemble L N cfg rows in
  length (asm_kept asm) = length (asm_y asm) /\
  length (asm_y asm) + length (asm_log asm) = length rows /\
  length (asm_y asm) <= length (asm_X asm) <= length rows.
Proof.
  intro asm. pose proof (fold_loop_counts rows empty_assembly) as H.
  cbv zeta in H. unfold asm, assemble. simpl in H. lia.
Qed.

End LoopCounts.

Lemma np_vstack_mixed_lengths (X : list vec) v1 v2 :
  In v1 X -> In v2 X -> length v1 <> length v2 ->
  np_vstack X = Err (mk_exc "ValueError"
    "all the input array dimensions except for the concatenation axis must match exactly").
Proof.
  intros H1 H2 Hn. destruct X as [|x X']; [destruct H1|].
  unfold np_vstack.
  destruct (forallb (fun r => Nat.eqb (length r) (length x)) (x :: X')) eqn:F; [|reflexivity].
  rewrite forallb_forall in F.
  apply F in H1. apply F in H2. apply Nat.eqb_eq in H1, H2. lia.
Qed.

Lemma threshold_spec (p : Q) :
  (threshold p = 1%Z <-> (1 # 2 <= p)%Q) /\ (threshold p = 0%Z <-> (p < 1 # 2)%Q).
Proof.
  unfold threshold. destruct (Qle_bool (1 # 2) p) eqn:E.
  - apply Qle_bool_iff in E. split; split; intro H; try reflexivity; try assumption.
    + discriminate H.
    + exfalso. apply (Qlt_not_le _ _ H E).
  - assert (N : ~ (1 # 2 <= p)%Q) by (intro H; apply Qle_bool_iff in H; congruence).
    split; split; intro H; try reflexivity.
    + discriminate H.
    + contradiction.
    + apply Qnot_le_lt. exact N.
Qed.

Section Extras.
Context {Model Report Bytes : Type}.
Variable B : backend Model Report Bytes.

(** X2.  If one manifest file decodes to zero samples (its vector is the
    twelve zeros of the early return, which calls no librosa feature
    function) and another file featurizes to a vector of another length
    (a successful featurization of a non-empty signal has 13 entries), both
    vectors reach [X] whatever their labels, and the run stops at
    [np.vstack] with a [ValueError]; its only events are the skip lines,
    before the class check, any split or any fit. *)
Theorem train_main_mixed_empty_audio (cfg : config) (rows : list row) (mo ro : string)
    r1 r2 sr1 v2 :
  In r1 rows -> In r2 rows ->
  librosa_load (librosa B) (row_path r1) (sample_rate cfg) (max_duration_seconds cfg)
    = Ok ([], sr1) ->
  feat B (row_path r2) cfg = Ok v2 -> length v2 <> 12 ->
  train_main B cfg rows mo ro =
    (map Printed (asm_log (assemble (librosa B) (numpy B) cfg rows)),
     Err (mk_exc "ValueError"
       "all the input array dimensions except for the concatenation axis must match exactly")).
Proof.
  intros I1 I2 L1 F2 Hn.
  assert (F1 : featurize (librosa B) (numpy B) (row_path r1) cfg
               = Ok (featurize_signal (librosa B) (numpy B) cfg [] sr1))
    by (unfold featurize; rewrite L1; reflexivity).
  unfold train_main, tell, lift. rewrite bindM_ok. cbn [fst snd].
  unfold assemble.
  rewrite (np_vstack_mixed_lengths _ _ _
             (fold_loop_keeps_vectors _ _ _ rows empty_assembly r1 _ I1 F1)
             (fold_loop_keeps_vectors _ _ _ rows empty_assembly r2 _ I2 F2))
    by (simpl; lia).
  cbn. rewrite app_nil_r. reflexivity.
Qed.

(** X3.  At inference, a file that fails to decode ends the run with the
    decoder's exception, and nothing is printed. *)
Theorem predict_decode_failure (path : string) (cfg : config) (art : Bytes) pk m e :
  joblib_load B art = Ok pk -> dict_get "model" pk = Ok m ->
  feat B path cfg = Err e ->
  predict_main B path cfg art = ([], Err e).
Proof.
  intros Hl Hm He. rewrite (predict_main_loaded B path cfg art pk Hl), Hm.
  unfold predict_from_model, lift. rewrite He. reflexivity.
Qed.

(** X4.  A loaded bundle without a ["model"] key ends inference with
    [KeyError('model')] before the audio is read; nothing is printed. *)
Theorem predict_missing_model_key (path : string) (cfg : config) (art : Bytes) pk :
  joblib_load B art = Ok pk -> find (fun kv => String.eqb (fst kv) "model") pk = None ->
  predict_main B path cfg art = ([], Err (mk_exc "KeyError" "model")).
Proof.
  intros Hl Hf. rewrite (predict_main_loaded B path cfg art pk Hl).
  unfold dict_get. rewrite Hf. reflexivity.
Qed.

(** X6.  When loading, featurizing and scoring succeed, inference prints
    exactly three lines, [file=], [piano_probability=] and [prediction=],
    the last one saying [piano] exactly when the probability is at least
    0.5; the returned label is that of the same comparison, 1 or 0. *)
Theorem predict_success_output (path : string) (cfg : config) (art : Bytes) pk m x p :
  joblib_load B art = Ok pk -> dict_get "model" pk = Ok (PModel m) ->
  feat B path cfg = Ok x -> sk_predict_proba B m x = Ok p ->
  predict_main B path cfg art =
    ([Printed ("file=" ++ path)%string;
      Printed ("piano_probability=" ++ fmt4 B p)%string;
      Printed ("prediction=" ++ (if Qle_bool (1 # 2) p then "piano" else "non_piano"))%string],
     Ok (p, if Qle_bool (1 # 2) p then 1%Z else 0%Z)) /\
  (threshold p = 1%Z <-> (1 # 2 <= p)%Q) /\
  (threshold p = 0%Z <-> (p < 1 # 2)%Q).
Proof.
  intros Hl Hm Hx Hp.
  rewrite (predict_main_loaded B path cfg art pk Hl), Hm,
          (predict_from_model_ok B path cfg m x p Hx Hp).
  split; [|apply threshold_spec].
  unfold threshold. destruct (Qle_bool (1 # 2) p); reflexivity.
Qed.

End Extras.

Lemma fst_bindM {A C} (m : M A) (f : A -> M C) :
  fst (bindM m f) = fst m ++ match snd m with Ok a => fst (f a) | Err _ => [] end.
Proof.
  destruct m as [w [a|e]]; simpl; [destruct (f a)|rewrite app_nil_r]; reflexivity.
Qed.

(** Walks a run of the monadic scripts, one library outcome at a time. *)
Ltac walk_run :=
  repeat first
    [ rewrite fst_bindM
    | rewrite snd_bindM
    | progress cbn [fst snd app]
    | match goal with
      | |- context [match ?r with Ok _ => _ | Err _ => _ end] => destruct r
      | |- context [match ?p with pair _ _ => _ end] => destruct p
      | |- context [if ?b then _ else _] => destruct b
      end ].

Section TrainRuns.
Context {Model Report Bytes : Type}.
Variable B : backend Model Report Bytes.

Lemma train_rest_num_samples cfg X y mo ro art mets :
  snd (train_rest B cfg X y mo ro) = Ok (art, mets) ->
  num_samples Report mets = Z.of_nat (length y).
Proof.
  unfold train_rest, call, lift, tell, ret. walk_run; try discriminate.
  intro H. injection H as _ <-. reflexivity.
Qed.

(** X9.  The [num_samples] a completed run reports is the number of kept
    files (the length of [y] and of [kept_paths]), not the number of
    manifest rows. *)
Theorem train_main_num_samples (cfg : config) (rows : list row) (mo ro : string) art mets :
  snd (train_main B cfg rows mo ro) = Ok (art, mets) ->
  num_samples Report mets
    = Z.of_nat (length (asm_kept (assemble (librosa B) (numpy B) cfg rows))).
Proof.
  destruct (fold_loop_counts (librosa B) (numpy B) cfg rows empty_assembly) as [Hk _].
  cbv zeta in Hk. cbn [asm_kept asm_y empty_assembly length] in Hk.
  change (fold_left (loop_step (librosa B) (numpy B) cfg) rows empty_assembly)
    with (assemble (librosa B) (numpy B) cfg rows) in Hk.
  replace (length (asm_kept (assemble (librosa B) (numpy B) cfg rows)))
    with (length (asm_y (assemble (librosa B) (numpy B) cfg rows))) by lia.
  unfold train_main, tell, lift, raise, ret. walk_run; try discriminate.
  apply train_rest_num_samples.
Qed.

(** X10.  When the validation and test fractions sum to zero, a run that
    gets past the class check and the first split raises
    [ZeroDivisionError] in [val_ratio = val_split / (val_split +
    test_split)]: its events are the skip lines and one split call, no fit
    and no artifact. *)
Theorem train_main_zero_holdout (cfg : config) (rows : list row) (mo ro : string) X v :
  let asm := assemble (librosa B) (numpy B) cfg rows in
  (val_split cfg + test_split cfg == 0)%Q ->
  np_vstack (asm_X asm) = Ok X ->
  (2 <= np_unique_size (asm_y asm))%nat ->
  train_test_split (sk_split_indices B) X (asm_y asm) (1 - train_split cfg) (seed cfg)
    = Ok v ->
  train_main B cfg rows mo ro =
    (map Printed (asm_log asm) ++ [Called "train_test_split"],
     Err (mk_exc "ZeroDivisionError" "float division by zero")).
Proof.
  intros asm Hz Hs Hu Hv.
  rewrite (train_main_after_stack B cfg rows mo ro X Hs). fold asm.
  destruct (Nat.ltb_spec (np_unique_size (asm_y asm)) 2); [lia|].
  unfold ret. rewrite bindM_ok. cbn [fst snd app].
  unfold train_rest, call, lift. rewrite Hv. destruct v as [[[Xa Xb] ya] yb].
  rewrite bindM_ok. cbn [fst snd].
  unfold py_div. rewrite (proj2 (Qeq_bool_iff _ _) Hz). cbn. reflexivity.
Qed.

End TrainRuns.

(** * Properties of [prepare_manifest.py] *)

Lemma existsb_eqb_in (x : string) (l : list string) :
  existsb (String.eqb x) l = true <-> In x l.
Proof.
  rewrite existsb_exists. split.
  - intros [y [Hy E]]. apply String.eqb_eq in E. subst. exact Hy.
  - intro H. exists x. split; [exact H|apply String.eqb_refl].
Qed.

Lemma drop_dup_paths_in seen rows p :
  In p (map fst (drop_dup_paths seen rows)) <-> In p (map fst rows) /\ ~ In p seen.
Proof.
  revert seen. induction rows as [|r rs IH]; intro seen; simpl; [tauto|].
  destruct (existsb (String.eqb (fst r)) seen) eqn:E.
  - apply existsb_eqb_in in E. rewrite IH.
    split; [tauto|]. intros [[<-|H] N]; [contradiction|tauto].
  - simpl. rewrite IH. simpl.
    destruct (string_dec (fst r) p) as [<-|Ne].
    + assert (~ In (fst r) seen) by (intro H; apply existsb_eqb_in in H; congruence).
      tauto.
    + split; [intros [H|[H N]]; [contradiction|tauto]|].
      intros [[H|H] N]; [contradiction|]. right. split; [exact H|].
      intros [H'|H']; [exact (Ne H')|exact (N H')].
Qed.

Lemma drop_dup_paths_nodup seen rows : NoDup (map fst (drop_dup_paths seen rows)).
Proof.
  revert seen. induction rows as [|r rs IH]; intro seen; simpl; [constructor|].
  destruct (existsb (String.eqb (fst r)) seen); [apply IH|].
  simpl. constructor; [|apply IH].
  intro H. apply drop_dup_paths_in in H. destruct H as [_ N]. apply N. left. reflexivity.
Qed.

Lemma drop_dup_paths_sub seen rows r : In r (drop_dup_paths seen rows) -> In r rows.
Proof.
  revert seen. induction rows as [|r' rs IH]; intro seen; simpl; [tauto|].
  destruct (existsb (String.eqb (fst r')) seen);
    [intro H; right; exact (IH _ H)|].
  intros [H|H]; [left; exact H|right; exact (IH _ H)].
Qed.

Lemma collect_in fs d l r :
  In r (collect fs d l) ->
  snd r = l /\ fs_exists fs d = true /\ In (fst r) (fs_rglob fs d) /\
  fs_is_file fs (fst r) = true /\ is_audio_path (fst r) = true.
Proof.
  unfold collect. destruct (fs_exists fs d); [|intros []].
  intro H. apply in_map_iff in H. destruct H as [p [<- Hp]].
  apply filter_In in Hp. destruct Hp as [Hp F]. apply andb_prop in F.
  simpl. tauto.
Qed.


Lemma prepare_main_ok fs pd root out df :
  snd (prepare_main fs pd root out) = Ok df ->
  gather_rows fs root <> [] /\
  df = select (EmptyString, 0%Z) (drop_dup_paths [] (gather_rows fs root))
              (pd_sample_positions pd (length (drop_dup_paths [] (gather_rows fs root)))).
Proof.
  unfold prepare_main. destruct (gather_rows fs root) as [|r rs]; [discriminate|].
  cbn. intro H. injection H as <-. split; [discriminate|reflexivity].
Qed.


Section Manifest.
Variable fs : fs_api.
Variable pd : pandas_api.
(** pandas: [sample(frac=1.0)] returns every row exactly once. *)
Hypothesis sample_perm : forall n, Permutation (pd_sample_positions pd n) (seq 0 n).

Lemma prepare_df_origin (root out : string) (df : list (string * Z)) :
  snd (prepare_main fs pd root out) = Ok df ->
  forall r, In r df ->
    fs_is_file fs (fst r) = true /\ is_audio_path (fst r) = true /\
    ((snd r = 1%Z /\ (In (fst r) (fs_rglob fs (path_join root "piano")) \/
                      In (fst r) (fs_rglob fs (path_join root "mixed")))) \/
     (snd r = 0%Z /\ In (fst r) (fs_rglob fs (path_join root "non_piano")))).
Proof.
  intros H r Hr. apply prepare_main_ok in H. destruct H as [_ ->].
  set (dd := drop_dup_paths [] (gather_rows fs root)) in Hr.
  apply (Permutation_in r (select_perm _ dd _ (sample_perm (length dd)))) in Hr.
  apply drop_dup_paths_sub in Hr. unfold gather_rows in Hr.
  rewrite !in_app_iff in Hr.
  destruct Hr as [Hr|[Hr|Hr]]; apply collect_in in Hr; tauto.
Qed.

(** X12.  Every row of the written manifest is a file whose suffix is an
    audio extension (in any letter case), found under [piano] or [mixed]
    with label 1, or under [non_piano] with label 0. *)
Theorem prepare_main_rows_origin (root out : string) (df : list (string * Z)) :
  snd (prepare_main fs pd root out) = Ok df ->
  forall r, In r df ->
    fs_is_file fs (fst r) = true /\ is_audio_path (fst r) = true /\
    ((snd r = 1%Z /\ (In (fst r) (fs_rglob fs (path_join root "piano")) \/
                      In (fst r) (fs_rglob fs (path_join root "mixed")))) \/
     (snd r = 0%Z /\ In (fst r) (fs_rglob fs (path_join root "non_piano")))).
Proof. exact (prepare_df_origin root out df). Qed.

Lemma prepare_df_unique (root out : string) (df : list (string * Z)) :
  snd (prepare_main fs pd root out) = Ok df ->
  Permutation df (drop_dup_paths [] (gather_rows fs root)) /\
  NoDup (map fst df) /\
  (forall p, In p (map fst df) <-> In p (map fst (gather_rows fs root))).
Proof.
  intro H. apply prepare_main_ok in H. destruct H as [_ ->].
  set (dd := drop_dup_paths [] (gather_rows fs root)).
  pose proof (select_perm (EmptyString, 0%Z) dd _ (sample_perm (length dd))) as P.
  split; [exact P|]. split.
  - apply (Permutation_NoDup (Permutation_map fst (Permutation_sym P))).
    apply drop_dup_paths_nodup.
  - intro p. split.
    + intro Hp. apply (Permutation_in p (Permutation_map fst P)) in Hp.
      apply drop_dup_paths_in in Hp. tauto.
    + intro Hp. apply (Permutation_in p (Permutation_map fst (Permutation_sym P))).
      apply drop_dup_paths_in. split; [exact Hp|intros []].
Qed.

(** X13.  The written manifest holds each collected path exactly once:
    it is a reordering of the rows kept by [drop_duplicates], has no two
    rows with the same path, and its paths are exactly the collected
    ones. *)
Theorem prepare_main_paths_unique (root out : string) (df : list (string * Z)) :
  snd (prepare_main fs pd root out) = Ok df ->
  Permutation df (drop_dup_paths [] (gather_rows fs root)) /\
  NoDup (map fst df) /\
  (forall p, In p (map fst df) <-> In p (map fst (gather_rows fs root))).
Proof. exact (prepare_df_unique root out df). Qed.

Lemma flat_map_kept_sub L N cfg rows x :
  In x (flat_map (row_kept L N cfg) rows) -> In x (map row_path rows).
Proof.
  induction rows as [|r rs IH]; simpl; [tauto|].
  rewrite in_app_iff. unfold row_kept at 1.
  destruct (featurize L N (row_path r) cfg); simpl; intuition.
Qed.

Lemma flat_map_kept_nodup L N cfg rows :
  NoDup (map row_path rows) -> NoDup (flat_map (row_kept L N cfg) rows).
Proof.
  induction rows as [|r rs IH]; simpl; intro H; [constructor|].
  inversion H as [|? ? Nin Hrs]; subst.
  unfold row_kept at 1. destruct (featurize L N (row_path r) cfg); simpl;
    [constructor|]; auto.
  intro Hin. apply Nin. exact (flat_map_kept_sub L N cfg rs _ Hin).
Qed.

(** X14.  A manifest written by [prepare_manifest], read back by the
    training script, never triggers the misalignment of an empty label:
    whatever files fail to decode, the loop ends with as many feature
    vectors as labels, every label is 0 or 1, and no file is kept
    twice. *)
Theorem prepare_then_assemble (root out : string) (df : list (string * Z))
    (L : librosa_api) (N : numpy_api) (cfg : config) :
  snd (prepare_main fs pd root out) = Ok df ->
  let asm := assemble L N cfg (manifest_rows df) in
  length (asm_X asm) = length (asm_y asm) /\
  Forall (fun z => z = 0%Z \/ z = 1%Z) (asm_y asm) /\
  NoDup (asm_kept asm).
Proof.
  intros H asm.
  pose proof (prepare_df_origin root out df H) as Orig.
  destruct (prepare_df_unique root out df H) as [_ [Nd _]].
  assert (Ints : Forall (fun r => exists z, py_int (row_label r) = Ok z) (manifest_rows df)).
  { unfold manifest_rows. rewrite Forall_map, Forall_forall. intros r _. eexists. reflexivity. }
  unfold asm, assemble, empty_assembly. rewrite (fold_loop_step L N cfg _ [] [] [] [] Ints).
  cbn [asm_X asm_y asm_kept app].
  assert (Lab : forall r, In r df -> snd r = 0%Z \/ snd r = 1%Z)
    by (intros r Hr; destruct (Orig r Hr) as (_ & _ & [[E _]|[E _]]); auto).
  unfold manifest_rows. clear H Orig Ints. split; [|split].
  - clear Nd Lab. induction df as [|r rs IH]; [reflexivity|].
    simpl. unfold row_vecs at 1, row_labels at 1. cbn [row_label py_int row_path].
    destruct (featurize L N (fst r) cfg); simpl; rewrite IH; reflexivity.
  - induction df as [|r rs IH]; [constructor|].
    simpl. apply Forall_app. split.
    + unfold row_labels. cbn [row_label py_int row_path].
      destruct (featurize L N (fst r) cfg); constructor; [apply Lab; left; reflexivity|constructor].
    + apply IH. inversion Nd; assumption. intros r' Hr'. apply Lab. right. exact Hr'.
  - apply flat_map_kept_nodup. rewrite map_map. exact Nd.
Qed.

End Manifest.

(** * Properties of [download_uiowa_piano.py] *)

(** ** The order [sorted] uses on strings *)

Lemma ascii_compare_refl (c : ascii) : Ascii.compare c c = Eq.
Proof. unfold Ascii.compare. apply N.compare_refl. Qed.

Lemma string_compare_refl (s : string) : String.compare s s = Eq.
Proof. induction s as [|c s IH]; simpl; [reflexivity|rewrite ascii_compare_refl; exact IH]. Qed.

Lemma ascii_compare_lt_trans (a b c : ascii) :
  Ascii.compare a b = Lt -> Ascii.compare b c = Lt -> Ascii.compare a c = Lt.
Proof. unfold Ascii.compare. rewrite !N.compare_lt_iff. lia. Qed.

Lemma string_compare_lt_trans (s1 s2 s3 : string) :
  String.compare s1 s2 = Lt -> String.compare s2 s3 = Lt -> String.compare s1 s3 = Lt.
Proof.
  revert s2 s3. induction s1 as [|c1 s1 IH]; intros [|c2 s2] [|c3 s3]; simpl;
    try discriminate; try reflexivity.
  destruct (Ascii.compare c1 c2) eqn:E12; try discriminate;
  destruct (Ascii.compare c2 c3) eqn:E23; try discriminate; intros H1 H2.
  - apply Ascii.compare_eq_iff in E12, E23. subst. rewrite ascii_compare_refl. exact (IH _ _ H1 H2).
  - apply Ascii.compare_eq_iff in E12. subst. rewrite E23. reflexivity.
  - apply Ascii.compare_eq_iff in E23. subst. rewrite E12. reflexivity.
  - rewrite (ascii_compare_lt_trans _ _ _ E12 E23). reflexivity.
Qed.

Lemma insert_uniq_in a l x : In x (insert_uniq a l) <-> a = x \/ In x l.
Proof.
  induction l as [|b l IH]; simpl; [tauto|].
  destruct (String.compare a b) eqn:E; simpl.
  - apply String.compare_eq_iff in E. subst. tauto.
  - tauto.
  - rewrite IH. tauto.
Qed.

Lemma insert_uniq_hd a b l : HdRel str_lt b l -> str_lt b a -> HdRel str_lt b (insert_uniq a l).
Proof.
  intros H Hba. destruct l as [|c l]; simpl; [constructor; exact Hba|].
  destruct (String.compare a c); [exact H|constructor; exact Hba|].
  inversion H; subst. constructor. assumption.
Qed.

Lemma insert_uniq_sorted a l : Sorted str_lt l -> Sorted str_lt (insert_uniq a l).
Proof.
  induction l as [|b l IH]; intro S; simpl; [repeat constructor|].
  inversion S as [|? ? Sl Hd]; subst.
  destruct (String.compare a b) eqn:E.
  - exact S.
  - constructor; [exact S|constructor; exact E].
  - constructor; [apply IH; exact Sl|].
    apply insert_uniq_hd; [exact Hd|].
    unfold str_lt. rewrite String.compare_antisym, E. reflexivity.
Qed.

Lemma sorted_set_spec l :
  Sorted str_lt (sorted_set l) /\ forall x, In x (sorted_set l) <-> In x l.
Proof.
  unfold sorted_set.
  assert (G : forall acc, Sorted str_lt acc ->
            Sorted str_lt (fold_left (fun acc a => insert_uniq a acc) l acc) /\
            forall x, In x (fold_left (fun acc a => insert_uniq a acc) l acc)
                      <-> In x acc \/ In x l).
  { induction l as [|a l IH]; intros acc S; simpl; [split; [exact S|tauto]|].
    destruct (IH (insert_uniq a acc) (insert_uniq_sorted a acc S)) as [S' M].
    split; [exact S'|]. intro x. rewrite M, insert_uniq_in. tauto. }
  destruct (G [] (Sorted_nil _)) as [S M]. split; [exact S|]. intro x. rewrite M. simpl. tauto.
Qed.

Lemma strongly_sorted_str_lt_nodup l : StronglySorted str_lt l -> NoDup l.
Proof.
  induction l as [|a l IH]; intro S; [constructor|].
  apply StronglySorted_inv in S. destruct S as [S F]. constructor; [|exact (IH S)].
  intro H. rewrite Forall_forall in F. specialize (F a H).
  unfold str_lt in F. rewrite string_compare_refl in F. discriminate.
Qed.

(** ** String lemmas for the URL shape *)

Lemma str_lower_app a b : str_lower (a ++ b) = (str_lower a ++ str_lower b)%string.
Proof. induction a as [|c a IH]; simpl; [reflexivity|rewrite IH; reflexivity]. Qed.

Lemma ends_with_app a b suf : ends_with b suf = true -> ends_with (a ++ b) suf = true.
Proof.
  induction a as [|c a IH]; intro H; [exact H|].
  simpl. rewrite (IH H). apply orb_true_r.
Qed.

Lemma ends_with_lstrip s suf :
  (forall x, String.eqb (String "/"%char x) suf = false) ->
  ends_with (str_lower s) suf = true -> ends_with (str_lower (lstrip_slash s)) suf = true.
Proof.
  intro Hs. induction s as [|c s IH]; intro H; [exact H|].
  cbn [lstrip_slash]. destruct (Ascii.eqb c "/"%char) eqn:E; [|exact H].
  apply Ascii.eqb_eq in E. subst. apply IH.
  cbn [str_lower] in H. change (lower_char "/"%char) with "/"%char in H.
  cbn [ends_with] in H. rewrite Hs in H. exact H.
Qed.

Lemma collect_links_in hs u :
  In u (collect_links hs) <-> exists h, In h hs /\ link_of_href h = Some u.
Proof.
  unfold collect_links. rewrite in_flat_map. split.
  - intros [h [Hh Hu]]. exists h. split; [exact Hh|].
    destruct (link_of_href h); [destruct Hu as [<-|[]]; reflexivity|destruct Hu].
  - intros [h [Hh Hu]]. exists h. split; [exact Hh|]. rewrite Hu. left. reflexivity.
Qed.

Lemma link_of_href_shape h u :
  link_of_href h = Some u ->
  starts_with u "http" = true /\
  (ends_with (str_lower u) ".aiff" || ends_with (str_lower u) ".wav") = true.
Proof.
  unfold link_of_href. destruct h as [href|]; [|discriminate].
  destruct (String.eqb href EmptyString); [discriminate|].
  destruct (ends_with (str_lower href) ".aiff" || ends_with (str_lower href) ".wav") eqn:E;
    [|discriminate].
  destruct (starts_with href "http") eqn:S; intro H; injection H as <-.
  - split; assumption.
  - assert (J : forall x suf, ends_with (str_lower x) suf = true ->
                ends_with (str_lower (BASE ++ "/" ++ x)) suf = true)
      by (intros x suf Hx; rewrite !str_lower_app; apply ends_with_app, ends_with_app; exact Hx).
    split; [reflexivity|].
    apply orb_true_iff in E. apply orb_true_iff.
    destruct E as [E|E]; [left|right]; apply J;
      apply ends_with_lstrip; try exact E; intro x; reflexivity.
Qed.

Lemma string_app_cancel p a b : (p ++ a)%string = (p ++ b)%string -> a = b.
Proof. induction p as [|c p IH]; simpl; [auto|]. intro H. injection H as H. auto. Qed.

Lemma called_get_inj a b :
  Called ("GET " ++ a)%string = Called ("GET " ++ b)%string -> a = b.
Proof.
  intro H. apply (f_equal (fun ev => match ev with Called s => s | Printed s => s end)) in H.
  exact (string_app_cancel _ _ _ H).
Qed.

Section DownloadFacts.
Context {Resp : Type}.
Variable W : web_api Resp.

Lemma discover_links_events : fst (discover_links W) = [Called ("GET " ++ PAGE)%string].
Proof.
  unfold discover_links, call, ret. destruct (http_get W PAGE); reflexivity.
Qed.

(** X15.  Every URL [discover_links] returns is absolute (it starts with
    [http]) and, in lower case, ends with [.aiff] or [.wav]: relative
    links are joined to [BASE] after stripping their leading slashes. *)
Theorem discover_links_shape (urls : list string) :
  snd (discover_links W) = Ok urls ->
  forall u, In u urls ->
    starts_with u "http" = true /\
    (ends_with (str_lower u) ".aiff" || ends_with (str_lower u) ".wav") = true.
Proof.
  unfold discover_links, call, ret. destruct (http_get W PAGE) as [r|e]; [|discriminate].
  cbn. intros H u Hu. injection H as <-.
  apply (proj2 (sorted_set_spec _)), collect_links_in in Hu.
  destruct Hu as [h [_ Hh]]. exact (link_of_href_shape h u Hh).
Qed.

(** X16.  Once the page is fetched, [discover_links] returns its links in
    strictly increasing order, hence without repetition, and a URL is
    returned exactly when some anchor of the page yields it. *)
Theorem discover_links_sorted (r : Resp) :
  http_get W PAGE = Ok r ->
  let urls := sorted_set (collect_links (resp_hrefs W r)) in
  discover_links W = ([Called ("GET " ++ PAGE)%string], Ok urls) /\
  StronglySorted str_lt urls /\ NoDup urls /\
  (forall u, In u urls <-> exists h, In h (resp_hrefs W r) /\ link_of_href h = Some u).
Proof.
  intros H urls. destruct (sorted_set_spec (collect_links (resp_hrefs W r))) as [S M].
  assert (SS : StronglySorted str_lt urls)
    by (apply Sorted_StronglySorted; [exact string_compare_lt_trans|exact S]).
  split; [unfold discover_links, call, ret; rewrite H; reflexivity|].
  split; [exact SS|]. split; [exact (strongly_sorted_str_lt_nodup _ SS)|].
  intro u. unfold urls. rewrite M. apply collect_links_in.
Qed.

Lemma exists_nonempty_write st t t' r :
  (0 < resp_size W r)%nat -> exists_nonempty W st t = true ->
  exists_nonempty W ((t', r) :: st) t = true.
Proof.
  intros Hr H. unfold exists_nonempty. simpl.
  destruct (String.eqb t' t); [apply Nat.ltb_lt; exact Hr|exact H].
Qed.

Lemma exists_nonempty_write_self st t r :
  (0 < resp_size W r)%nat -> exists_nonempty W ((t, r) :: st) t = true.
Proof.
  intro Hr. unfold exists_nonempty. simpl. rewrite String.eqb_refl. apply Nat.ltb_lt. exact Hr.
Qed.


Lemma download_loop_gets out total sel idx st u :
  In (Called ("GET " ++ u)%string) (fst (download_loop W out total sel idx st)) -> In u sel.
Proof.
  revert idx st. induction sel as [|url rest IH]; intros idx st; [intros []|].
  cbn [download_loop]. unfold tell, call.
  destruct (exists_nonempty W st _).
  - rewrite bindM_ok. cbn [fst snd app]. intros [H|H]; [discriminate H|right; exact (IH _ _ H)].
  - rewrite bindM_ok. cbn [fst snd].
    destruct (http_get W url) as [resp|e'].
    + rewrite bindM_ok. cbn [fst snd app].
      destruct (write_bytes W (path_join out (last_segment url)) resp) as [[]|e''].
      * rewrite bindM_ok. cbn [fst snd app].
        intros [H|[H|[H|H]]]; [discriminate H| |discriminate H|right; exact (IH _ _ H)].
        apply called_get_inj in H. left. exact H.
      * cbn. intros [H|[H|[H|[]]]]; [discriminate H| |discriminate H].
        apply called_get_inj in H. left. exact H.
    + cbn. intros [H|[H|[]]]; [discriminate H|].
      apply called_get_inj in H. left. exact H.
Qed.

Lemma download_loop_ok_present out total sel idx st st' :
  (forall u r, http_get W u = Ok r -> (0 < resp_size W r)%nat) ->
  snd (download_loop W out total sel idx st) = Ok st' ->
  (forall t, exists_nonempty W st t = true -> exists_nonempty W st' t = true) /\
  (forall u, In u sel -> exists_nonempty W st' (path_join out (last_segment u)) = true).
Proof.
  intro Hsz. revert idx st. induction sel as [|url rest IH]; intros idx st.
  - cbn. intro H. injection H as <-. split; [auto|intros u []].
  - cbn [download_loop]. unfold tell, call.
    destruct (exists_nonempty W st (path_join out (last_segment url))) eqn:Ex.
    + rewrite bindM_ok. cbn [fst snd]. intro H. destruct (IH _ _ H) as [P1 P2].
      split; [exact P1|]. intros u [<-|Hu]; [apply P1; exact Ex|apply P2; exact Hu].
    + rewrite bindM_ok. cbn [fst snd].
      destruct (http_get W url) as [resp|e'] eqn:G; [|discriminate].
      rewrite bindM_ok. cbn [fst snd].
      destruct (write_bytes W (path_join out (last_segment url)) resp) as [[]|e'']; [|discriminate].
      rewrite bindM_ok. cbn [fst snd]. intro H. destruct (IH _ _ H) as [P1 P2].
      split.
      * intros t Ht. apply P1, exists_nonempty_write; [exact (Hsz _ _ G)|exact Ht].
      * intros u [<-|Hu]; [|apply P2; exact Hu].
        apply P1, exists_nonempty_write_self. exact (Hsz _ _ G).
Qed.

Lemma download_loop_all_present out total sel idx st :
  (forall u, In u sel -> exists_nonempty W st (path_join out (last_segment u)) = true) ->
  snd (download_loop W out total sel idx st) = Ok st /\
  forall ev, In ev (fst (download_loop W out total sel idx st)) -> exists s, ev = Printed s.
Proof.
  revert idx. induction sel as [|url rest IH]; intros idx H; [split; [reflexivity|intros ev []]|].
  cbn [download_loop]. unfold tell.
  rewrite (H url (or_introl eq_refl)), bindM_ok. cbn [fst snd].
  destruct (IH (S idx) (fun u Hu => H u (or_intror Hu))) as [P1 P2].
  split; [exact P1|]. intros ev [<-|Hev]; [eexists; reflexivity|exact (P2 _ Hev)].
Qed.

Lemma download_main_unfold out limit st wd urls :
  mkdir_out W out = Ok tt -> discover_links W = (wd, Ok urls) -> urls <> [] ->
  let sel := py_slice_upto urls limit in
  let lp := download_loop W out (length sel) sel 1 st in
  download_main W out limit st =
    ([Called "mkdir"] ++ wd ++
       [Printed ("Discovered " ++ str_of_nat (length urls) ++ " links, downloading "
                 ++ str_of_nat (length sel))%string] ++
       fst lp ++
       match snd lp with Ok _ => [Printed ("Done. Files in: " ++ out)%string] | Err _ => [] end,
     snd lp).
Proof.
  intros Mk D Ne sel lp. unfold download_main, call, tell, ret.
  rewrite Mk, bindM_ok. cbn [fst snd]. rewrite D, bindM_ok. cbn [fst snd].
  destruct urls as [|u0 us]; [contradiction|]. rewrite bindM_ok. cbn [fst snd app].
  rewrite bindM_ok. cbn [fst snd]. fold sel lp.
  destruct lp as [wl [st'|e]]; cbn; rewrite ?app_nil_r, <- ?app_assoc; reflexivity.
Qed.

Lemma download_main_no_links out limit st wd :
  mkdir_out W out = Ok tt -> discover_links W = (wd, Ok []) ->
  download_main W out limit st
    = ([Called "mkdir"] ++ wd,
       Err (mk_exc "RuntimeError" "No sample links discovered from source page")).
Proof.
  intros Mk D. unfold download_main, call, raise. rewrite Mk, bindM_ok. cbn [fst snd].
  rewrite D, bindM_ok. cbn. rewrite app_nil_r. reflexivity.
Qed.


(** X18.  When every body the server returns is non-empty, rerunning the
    downloader on the folder a successful run left behind fetches nothing
    but the index page and writes nothing: every selected file is found
    with [exists], and the folder is unchanged. *)
Theorem download_main_rerun_idle (out : string) (limit : Z) (st0 st1 : @store Resp) :
  (forall u r, http_get W u = Ok r -> (0 < resp_size W r)%nat) ->
  snd (download_main W out limit st0) = Ok st1 ->
  snd (download_main W out limit st1) = Ok st1 /\
  forall ev, In ev (fst (download_main W out limit st1)) ->
    ev = Called "mkdir" \/ ev = Called ("GET " ++ PAGE)%string \/ exists s, ev = Printed s.
Proof.
  intros Hsz H.
  destruct (mkdir_out W out) as [[]|e0] eqn:Mk.
  2:{ unfold download_main, call in H. rewrite Mk in H. discriminate H. }
  destruct (discover_links W) as [wd [urls|e]] eqn:D.
  2:{ unfold download_main, call in H. rewrite Mk, bindM_ok in H. cbn [snd] in H.
      rewrite D in H. discriminate H. }
  assert (Wd : wd = [Called ("GET " ++ PAGE)%string])
    by (pose proof discover_links_events as E; rewrite D in E; exact E).
  destruct urls as [|u0 us].
  { rewrite (download_main_no_links out limit st0 wd Mk D) in H. discriminate H. }
  pose proof (download_main_unfold out limit st0 wd _ Mk D ltac:(discriminate)) as U0.
  pose proof (download_main_unfold out limit st1 wd _ Mk D ltac:(discriminate)) as U1.
  cbv zeta in U0, U1. rewrite U0 in H. cbn [snd] in H.
  set (sel := py_slice_upto (u0 :: us) limit) in *.
  destruct (download_loop_ok_present out (length sel) sel 1 st0 st1 Hsz H) as [_ P].
  destruct (download_loop_all_present out (length sel) sel 1 st1 P) as [Ok1 Ev1].
  rewrite U1. cbn [fst snd]. rewrite Ok1. split; [reflexivity|].
  intros ev Hev. rewrite Wd in Hev. rewrite !in_app_iff in Hev.
  destruct Hev as [[<-|[]]|[[<-|[]]|[[<-|[]]|[Hev|[<-|[]]]]]].
  - left. reflexivity.
  - right. left. reflexivity.
  - right. right. eexists. reflexivity.
  - right. right. exact (Ev1 _ Hev).
  - right. right. eexists. reflexivity.
Qed.

(** X19.  [--limit k] selects [urls[:k]]: the first [k] links for [k >= 0],
    all but the last [-k] for [k < 0]; apart from the index page, a run
    fetches only URLs of that selection. *)
Theorem download_main_fetches_selection (out : string) (limit : Z) (st0 : @store Resp) wd urls :
  discover_links W = (wd, Ok urls) ->
  length (py_slice_upto urls limit)
    = (if (0 <=? limit)%Z then Nat.min (Z.to_nat limit) (length urls)
       else length urls - Z.to_nat (- limit))%nat /\
  forall u, In (Called ("GET " ++ u)%string) (fst (download_main W out limit st0)) ->
    u = PAGE \/ In u (py_slice_upto urls limit).
Proof.
  intro D. split.
  - unfold py_slice_upto. destruct (0 <=? limit)%Z eqn:E; rewrite length_firstn; lia.
  - assert (Wd : wd = [Called ("GET " ++ PAGE)%string])
      by (pose proof discover_links_events as E; rewrite D in E; exact E).
    intros u Hu.
    destruct (mkdir_out W out) as [[]|e0] eqn:Mk.
    2:{ unfold download_main, call in Hu. rewrite Mk in Hu.
        destruct Hu as [H|[]]. discriminate H. }
    destruct urls as [|u0 us].
    + rewrite (download_main_no_links out limit st0 wd Mk D), Wd in Hu.
      destruct Hu as [H|[H|[]]]; [discriminate H|].
      apply called_get_inj in H. left. symmetry. exact H.
    + rewrite (download_main_unfold out limit st0 wd _ Mk D ltac:(discriminate)) in Hu.
      cbv zeta in Hu. cbn [fst] in Hu. rewrite Wd in Hu. rewrite !in_app_iff in Hu.
      destruct Hu as [[H|[]]|[[H|[]]|[[H|[]]|[H|H]]]].
      * discriminate H.
      * apply called_get_inj in H. left. symmetry. exact H.
      * discriminate H.
      * right. exact (download_loop_gets _ _ _ _ _ _ H).
      * destruct (snd _); [destruct H as [H|[]]; discriminate H|destruct H].
Qed.

End DownloadFacts.

(** ** Runs for the further properties *)

Lemma train_main_mixed_empty_audio_witness :
  train_main sample_backend sample_config
    [mk_row "silence.wav" (CInt 0); mk_row "a.wav" (CInt 1)] "m" "r"
  = ([], Err (mk_exc "ValueError"
       "all the input array dimensions except for the concatenation axis must match exactly")).
Proof.
  destruct (feat sample_backend "a.wav" sample_config) as [v2|e] eqn:F;
    [|vm_compute in F; discriminate F].
  assert (Hn : length v2 <> 12) by (vm_compute in F; injection F as <-; simpl; lia).
  exact (train_main_mixed_empty_audio sample_backend sample_config
           [mk_row "silence.wav" (CInt 0); mk_row "a.wav" (CInt 1)] "m" "r"
           (mk_row "silence.wav" (CInt 0)) (mk_row "a.wav" (CInt 1)) 22050%Z v2
           (or_introl eq_refl) (or_intror (or_introl eq_refl)) eq_refl F Hn).
Defined.

Lemma predict_decode_failure_witness :
  predict_main sample_backend "corrupt.wav" sample_config sample_bundle
  = ([], Err (mk_exc "NoBackendError" "could not decode corrupt.wav")).
Proof.
  apply (predict_decode_failure sample_backend "corrupt.wav" sample_config sample_bundle
           sample_bundle (PModel (1 # 2))); reflexivity.
Defined.

Lemma predict_missing_model_key_witness :
  predict_main sample_backend "a.wav" sample_config [("config", PConfig sample_config)]
  = ([], Err (mk_exc "KeyError" "model")).
Proof.
  apply (predict_missing_model_key sample_backend "a.wav" sample_config
           [("config", PConfig sample_config)] [("config", PConfig sample_config)]);
    reflexivity.
Defined.

Lemma predict_success_output_witness :
  fst (predict_main sample_backend "a.wav" sample_config sample_bundle)
    = [Printed "file=a.wav"; Printed "piano_probability=0.5000"; Printed "prediction=piano"] /\
  threshold (1 # 2) = 1%Z.
Proof.
  destruct (feat sample_backend "a.wav" sample_config) as [x|e] eqn:F;
    [|vm_compute in F; discriminate F].
  destruct (predict_success_output sample_backend "a.wav" sample_config sample_bundle
              sample_bundle (1 # 2) x (1 # 2) eq_refl eq_refl F eq_refl) as [E [T _]].
  rewrite E. split; [reflexivity|]. apply T. apply Qle_refl.
Defined.

Lemma train_main_num_samples_witness :
  exists art mets,
    snd (train_main sample_backend sample_config
           (sample_rows ++ [mk_row "corrupt.wav" (CInt 1)]) "m" "r") = Ok (art, mets) /\
    num_samples unit mets = 4%Z.
Proof.
  destruct (snd (train_main sample_backend sample_config
                   (sample_rows ++ [mk_row "corrupt.wav" (CInt 1)]) "m" "r"))
    as [[art mets]|e] eqn:E; [|vm_compute in E; discriminate E].
  exists art, mets. split; [reflexivity|].
  rewrite (train_main_num_samples sample_backend sample_config _ "m" "r" art mets E).
  vm_compute. reflexivity.
Defined.

Lemma train_main_zero_holdout_witness :
  snd (train_main sample_backend_strat sample_config_no_holdout sample_rows20 "m" "r")
  = Err (mk_exc "ZeroDivisionError" "float division by zero").
Proof.
  set (asm := assemble (librosa sample_backend_strat) (numpy sample_backend_strat)
                sample_config_no_holdout sample_rows20).
  assert (S : np_vstack (asm_X asm) = Ok (asm_X asm)) by (vm_compute; reflexivity).
  destruct (train_test_split (sk_split_indices sample_backend_strat) (asm_X asm) (asm_y asm)
              (1 - train_split sample_config_no_holdout) (seed sample_config_no_holdout))
    as [v|e] eqn:T; [|vm_compute in T; discriminate T].
  rewrite (train_main_zero_holdout sample_backend_strat sample_config_no_holdout sample_rows20
             "m" "r" (asm_X asm) v ltac:(reflexivity) S ltac:(vm_compute; lia) T).
  reflexivity.
Defined.

Lemma sample_pandas_perm : forall n, Permutation (pd_sample_positions sample_pandas n) (seq 0 n).
Proof. intro n. simpl. apply Permutation_sym, Permutation_rev. Qed.

Lemma prepare_main_rows_origin_witness :
  match snd (prepare_main sample_fs sample_pandas "raw" "out.csv") with
  | Ok df => forall r, In r df -> is_audio_path (fst r) = true
  | Err _ => False
  end.
Proof.
  destruct (snd (prepare_main sample_fs sample_pandas "raw" "out.csv")) as [df|e] eqn:E;
    [|vm_compute in E; discriminate E].
  intros r Hr.
  exact (proj1 (proj2 (prepare_main_rows_origin sample_fs sample_pandas sample_pandas_perm
                         "raw" "out.csv" df E r Hr))).
Defined.

Lemma prepare_main_paths_unique_witness :
  match snd (prepare_main sample_fs sample_pandas "raw" "out.csv") with
  | Ok df => NoDup (map fst df)
  | Err _ => False
  end.
Proof.
  destruct (snd (prepare_main sample_fs sample_pandas "raw" "out.csv")) as [df|e] eqn:E;
    [|vm_compute in E; discriminate E].
  exact (proj1 (proj2 (prepare_main_paths_unique sample_fs sample_pandas sample_pandas_perm
                         "raw" "out.csv" df E))).
Defined.

Lemma prepare_then_assemble_witness :
  match snd (prepare_main sample_fs sample_pandas "raw" "out.csv") with
  | Ok df =>
    let asm := assemble sample_librosa sample_numpy sample_config (manifest_rows df) in
    length (asm_X asm) = length (asm_y asm)
  | Err _ => False
  end.
Proof.
  destruct (snd (prepare_main sample_fs sample_pandas "raw" "out.csv")) as [df|e] eqn:E;
    [|vm_compute in E; discriminate E].
  exact (proj1 (prepare_then_assemble sample_fs sample_pandas sample_pandas_perm
                  "raw" "out.csv" df sample_librosa sample_numpy sample_config E)).
Defined.

Lemma discover_links_shape_witness :
  match snd (discover_links sample_web) with
  | Ok urls => forall u, In u urls -> starts_with u "http" = true
  | Err _ => False
  end.
Proof.
  destruct (snd (discover_links sample_web)) as [urls|e] eqn:E;
    [|vm_compute in E; discriminate E].
  intros u Hu. exact (proj1 (discover_links_shape sample_web urls E u Hu)).
Defined.

Lemma discover_links_sorted_witness :
  NoDup (sorted_set (collect_links sample_hrefs)).
Proof.
  exact (proj1 (proj2 (proj2 (discover_links_sorted sample_web (sample_hrefs, 1000%nat)
                                eq_refl)))).
Defined.


Lemma sample_web_nonempty :
  forall u r, http_get sample_web u = Ok r -> (0 < resp_size sample_web r)%nat.
Proof.
  intros u r H. simpl in H |- *.
  destruct (String.eqb u PAGE); [injection H as <-; simpl; lia|].
  destruct (String.eqb u "https://theremin.music.uiowa.edu/sound/broken.wav");
    [discriminate H|injection H as <-; simpl; lia].
Qed.

Lemma download_main_rerun_idle_witness :
  match snd (download_main sample_web "out" (-1) []) with
  | Ok st1 => snd (download_main sample_web "out" (-1) st1) = Ok st1
  | Err _ => False
  end.
Proof.
  destruct (snd (download_main sample_web "out" (-1) [])) as [st1|e] eqn:E;
    [|vm_compute in E; discriminate E].
  exact (proj1 (download_main_rerun_idle sample_web "out" (-1) [] st1 sample_web_nonempty E)).
Defined.

Lemma download_main_fetches_selection_witness :
  length (py_slice_upto (sorted_set (collect_links sample_hrefs)) (-1)) = 2%nat.
Proof.
  rewrite (proj1 (download_main_fetches_selection sample_web "out" (-1) []
                    [Called ("GET " ++ PAGE)%string] (sorted_set (collect_links sample_hrefs))
                    eq_refl)).
  vm_compute. reflexivity.
Defined.
